(** * JPEG to PDF converter: a shallow embedding of [jpeg_to_pdf_converter.py]

    The development follows the script function by function:
    [apply_exif_orientation], [convert_jpegs_to_pdf] and [main].  Python
    exceptions are values of [Result]; the console, the message boxes and the
    file system are fields of an explicit [World] threaded by the monad [Py].
    The parts of Pillow the script calls ([Image.open], [_getexif], [rotate],
    [convert], [save]) are modelled in [Module PIL]. *)

From Stdlib Require Import ZArith QArith List Ascii String Lia.
From stdpp Require Import base option list gmap strings.

(** ** Python exceptions *)

(** The exception classes that matter to the script's handlers.  All of them
    derive from [Exception], so the bare [except Exception] handlers catch
    every one of them; only the first three are named by the handler of
    [apply_exif_orientation]. *)
Inductive ExcClass :=
  | AttributeError | KeyError | TypeError
  | ValueError | SyntaxError | OSError | MemoryError.

(** An exception instance: its class and what [str(e)] renders. *)
Record Exception := mkExc { exc_class : ExcClass; exc_str : string }.

Inductive Result (A : Type) :=
  | Return (a : A)
  | Raise (e : Exception).
Arguments Return {A} a.
Arguments Raise {A} e.

Definition is_raise {A} (r : Result A) : bool :=
  match r with Raise _ => true | Return _ => false end.

(** ** Python values found in an EXIF dictionary *)

(** [PyFloat] is a finite float or one of Pillow's rationals, by its exact
    value; [PyOther] is a value of any other kind (bytes, a dictionary, a
    float that is not a number, ...), of which the script only uses the
    truth value: such a value equals no integer. *)
#[warnings="-register-all"]
Inductive PyVal :=
  | PyNone
  | PyBool (b : bool)
  | PyInt (n : Z)
  | PyFloat (q : Q)
  | PyStr (s : string)
  | PyTuple (items : list PyVal)
  | PyOther (truth : bool).

(** [if v:] *)
Definition truthy (v : PyVal) : bool :=
  match v with
  | PyNone => false
  | PyBool b => b
  | PyInt n => negb (n =? 0)%Z
  | PyFloat q => negb (Qeq_bool q 0)
  | PyStr s => negb (String.eqb s "")
  | PyTuple items => match items with [] => false | _ :: _ => true end
  | PyOther truth => truth
  end.

(** [v == k] for an integer literal [k]: numbers compare by value, whatever
    their type ([True == 1], [6.0 == 6]). *)
Definition eq_int (v : PyVal) (k : Z) : bool :=
  match v with
  | PyBool b => ((if b then 1 else 0) =? k)%Z
  | PyInt n => (n =? k)%Z
  | PyFloat q => Qeq_bool q (inject_Z k)
  | _ => false
  end.

(** ** The part of Pillow the script uses *)

Module PIL.

(** A pixel is its tuple of band values. *)
Definition Pixel := list Z.

(** An open image.  [pixels] are the rows from top to bottom; [getexif] is
    the outcome of the call [image._getexif()]: an exception, [None], or
    the tag dictionary; [load_error] is the failure, if any, that decoding
    the pixel data will raise ([Image.open] reads the header only, the
    data is decoded by the first operation that needs it); [source] is the
    file an image that [Image.open] returned still reads its data from,
    and [None] for an image that holds its data. *)
Record Image := mkImage {
  size : nat * nat;
  mode : string;
  pixels : list (list Pixel);
  getexif : Result (option (gmap Z PyVal));
  load_error : option Exception;
  source : option string
}.

Definition width (im : Image) : nat := fst (size im).
Definition height (im : Image) : nat := snd (size im).

(** The pixel data really has the advertised dimensions. *)
Definition well_formed (im : Image) : Prop :=
  length (pixels im) = height im /\
  forallb (fun row => length row =? width im) (pixels im) = true.

(** [im.getpixel((x, y))], with the empty tuple outside the raster. *)
Definition getpixel (im : Image) (x y : nat) : Pixel :=
  nth x (nth y (pixels im) []) [].

(** A [w] by [h] raster whose pixel at column [x], row [y] is [f x y]. *)
Definition raster (w h : nat) (f : nat -> nat -> Pixel) : list (list Pixel) :=
  map (fun y => map (fun x => f x y) (seq 0 w)) (seq 0 h).

(** [image.load()] *)
Definition load (im : Image) : Result unit :=
  match load_error im with
  | Some e => Raise e
  | None => Return tt
  end.

(** The images Pillow derives from an open file are plain [Image.Image]
    objects: they are decoded, and have no [_getexif] method. *)
Definition derived (sz : nat * nat) (m : string) (px : list (list Pixel)) : Image :=
  {| size := sz; mode := m; pixels := px;
     getexif := Raise (mkExc AttributeError "_getexif");
     load_error := None; source := None |}.

Inductive Transpose := ROTATE_90 | ROTATE_180 | ROTATE_270.

(** [Image.transpose]: the destination pixel loops of Pillow's geometry
    code, counter-clockwise.  For [ROTATE_90] the source pixel [(x, y)]
    lands at column [y], row [w-1-x]; for [ROTATE_270] at column [h-1-y],
    row [x]; for [ROTATE_180] at column [w-1-x], row [h-1-y]. *)
Definition transpose (im : Image) (method : Transpose) : Image :=
  let w := width im in
  let h := height im in
  match method with
  | ROTATE_90 =>
      derived (h, w) (mode im) (raster h w (fun x y => getpixel im (w - 1 - y) x))
  | ROTATE_180 =>
      derived (w, h) (mode im) (raster w h (fun x y => getpixel im (w - 1 - x) (h - 1 - y)))
  | ROTATE_270 =>
      derived (h, w) (mode im) (raster h w (fun x y => getpixel im y (h - 1 - x)))
  end.

(** The angles the script passes to [rotate]. *)
Inductive Angle := Deg90 | Deg180 | Deg270.

(** [image.rotate(angle, expand=True)] for a right angle: Pillow decodes the
    image and takes the exact transposition (no resampling). *)
Definition rotate (im : Image) (angle : Angle) : Result Image :=
  match load im with
  | Raise e => Raise e
  | Return _ =>
      Return (transpose im
                match angle with
                | Deg90 => ROTATE_90
                | Deg180 => ROTATE_180
                | Deg270 => ROTATE_270
                end)
  end.

(** The image codec: how a pixel of a given mode converts to RGB ([None]
    for a mode Pillow has no conversion for), how many bytes the encoded
    document takes, and how many a document takes that was given up after
    the given pages. *)
Class Codec := {
  rgb_pixel : string -> option (Pixel -> Pixel);
  pdf_nbytes : list Image -> Z;
  unfinished_nbytes : list Image -> Z
}.

(** [image.convert('RGB')] *)
Definition convert_RGB `{Codec} (im : Image) : Result Image :=
  match load im with
  | Raise e => Raise e
  | Return _ =>
      match rgb_pixel (mode im) with
      | None => Raise (mkExc ValueError "conversion not supported")
      | Some f => Return (derived (size im) "RGB" (map (map f) (pixels im)))
      end
  end.

(** Files: an image Pillow can open, a file on which [Image.open] raises
    (not an image, damaged header, no permission), a document written by
    [save], or what a [save] that failed half-way left of one. *)
Inductive Content :=
  | ImageFile (im : Image)
  | Unreadable (e : Exception)
  | PdfDocument (pages : list Image) (resolution : Z)
  | UnfinishedPdf (pages : list Image).

Record File := mkFile { content : Content; nbytes : Z }.

(** The image [Image.open(fp)] returns for the image data [im]: its data
    stays in the file until something decodes it. *)
Definition opened_from (fp : string) (im : Image) : Image :=
  mkImage (size im) (mode im) (pixels im) (getexif im) (load_error im) (Some fp).

(** [Image.open(fp)] *)
Definition open (fs : gmap string File) (fp : string) : Result Image :=
  match fs !! fp with
  | None => Raise (mkExc OSError "No such file or directory")
  | Some f =>
      match content f with
      | ImageFile im => Return (opened_from fp im)
      | Unreadable e => Raise e
      | PdfDocument _ _ => Raise (mkExc OSError "cannot identify image file")
      | UnfinishedPdf _ => Raise (mkExc OSError "cannot identify image file")
      end
  end.

(** Decoding a page while the document is being written to [fp]: the
    destination was emptied when it was opened for writing, so an image that
    still reads its data from that very file finds none. *)
Definition load_while_writing (fp : string) (im : Image) : Result unit :=
  match source im with
  | Some origin =>
      if String.eqb origin fp then Raise (mkExc OSError "image file is truncated")
      else load im
  | None => load im
  end.

(** The page loop of the PDF writer: [ims] are encoded in order after the
    pages [written]; the result tells how far it got. *)
Fixpoint write_pages (fp : string) (ims : list Image) (written : list Image)
    : Result unit * list Image :=
  match ims with
  | [] => (Return tt, written)
  | im :: rest =>
      match load_while_writing fp im with
      | Raise e => (Raise e, written)
      | Return _ => write_pages fp rest (written ++ [im])
      end
  end.

(** [im.save(fp, save_all=True, append_images=..., format='PDF',
    resolution=...)], with the files it leaves.  The image itself is decoded
    first; then the destination is opened for writing, which empties it
    ([faults] are the destinations at which opening raises); then the pages
    are encoded one after the other, each appended image being decoded when
    its turn comes.  When that fails, a destination that did not exist
    before is removed again, and one that did is left with the unfinished
    document. *)
Definition save `{Codec} (fs : gmap string File) (faults : gmap string Exception)
    (im : Image) (fp : string) (append_images : list Image) (resolution : Z)
    : Result unit * gmap string File :=
  match load im with
  | Raise e => (Raise e, fs)
  | Return _ =>
      match faults !! fp with
      | Some e => (Raise e, fs)
      | None =>
          match write_pages fp append_images [im] with
          | (Return _, _) =>
              (Return tt,
               <[fp := mkFile (PdfDocument (im :: append_images) resolution)
                              (pdf_nbytes (im :: append_images))]> fs)
          | (Raise e, written) =>
              (Raise e,
               match fs !! fp with
               | None => fs
               | Some _ =>
                   <[fp := mkFile (UnfinishedPdf written)
                                  (unfinished_nbytes written)]> fs
               end)
          end
      end
  end.

End PIL.
Import PIL.

(** ** The world the script runs in *)

(** One constructor per [print] of the script, carrying the values its
    f-string interpolates; the fixed lines of the banner are one
    constructor, and so are those of the closing. *)
Inductive LogLine :=
  | LogRotated (angle : Z) (orientation : PyVal)
  | LogNoRotationNeeded (orientation : PyVal)
  | LogUnsupported (orientation : PyVal)
  | LogNoExif
  | LogNoFilesSelected
  | LogNoOutputPath
  | LogProcessingCount (n : nat)
  | LogProcessing (i n : nat) (name : string)
  | LogOpened (w h : nat) (mode : string)
  | LogOpenFailed (msg : string)
  | LogConverted (original_mode : string)
  | LogAlreadyRGB
  | LogProcessed
  | LogNoneProcessed
  | LogCreating (pages : nat)
  | LogCreated
  | LogOutputLocation (output_path : string)
  | LogFileSize (bytes : Z)
  | LogError (error_msg : string)
  | LogBanner
  | LogStep1
  | LogCancelledFiles
  | LogGoodbye
  | LogSelected (n : nat)
  | LogSelectedFile (i : nat) (name : string) (bytes : Z)
  | LogStep2
  | LogCancelledOutput
  | LogSavedAs (name : string)
  | LogStep3
  | LogCompleted
  | LogFailed
  | LogThanks.

(** The text of the success dialog: its three interpolated fields. *)
Record SuccessMessage := mkSuccess {
  msg_pages : nat;
  msg_location : string;
  msg_bytes : Z
}.

Inductive Dialog :=
  | ShowError (title message : string)
  | ShowInfo (message : SuccessMessage).

Record World := mkWorld {
  fs : gmap string File;
  write_faults : gmap string Exception;
  chosen_files : list string;
  chosen_output : string;
  console : list LogLine;
  dialogs : list Dialog
}.

(** ** State and exceptions *)

Definition Py (A : Type) : Type := World -> Result A * World.

Definition ret {A} (a : A) : Py A := fun w => (Return a, w).

Definition bind {A B} (c : Py A) (k : A -> Py B) : Py B :=
  fun w =>
    match c w with
    | (Return a, w') => k a w'
    | (Raise e, w') => (Raise e, w')
    end.

Notation "x <- c ;; k" := (bind c (fun x => k))
  (at level 100, c at next level, right associativity).
Notation "c ;; k" := (bind c (fun _ => k))
  (at level 100, right associativity).

(** Calling a function that does not touch the world. *)
Definition call {A} (r : Result A) : Py A := fun w => (r, w).

(** [try: body / except classes: handler]; what [body] did to the world
    before raising stays done. *)
Definition try_except {A} (body : Py A) (catches : ExcClass -> bool)
    (handler : Exception -> Py A) : Py A :=
  fun w =>
    match body w with
    | (Return a, w') => (Return a, w')
    | (Raise e, w') =>
        if catches (exc_class e) then handler e w' else (Raise e, w')
    end.

(** [except Exception] *)
Definition any_exception (c : ExcClass) : bool := true.

Definition print (l : LogLine) : Py unit :=
  fun w => (Return tt,
            mkWorld (fs w) (write_faults w) (chosen_files w) (chosen_output w)
                    (console w ++ [l]) (dialogs w)).

Definition show (d : Dialog) : Py unit :=
  fun w => (Return tt,
            mkWorld (fs w) (write_faults w) (chosen_files w) (chosen_output w)
                    (console w) (dialogs w ++ [d])).

Definition Image_open (fp : string) : Py Image :=
  fun w => (open (fs w) fp, w).

Definition Image_save `{Codec} (im : Image) (fp : string)
    (append_images : list Image) (resolution : Z) : Py unit :=
  fun w =>
    let (r, fs') := save (fs w) (write_faults w) im fp append_images resolution in
    (r, mkWorld fs' (write_faults w) (chosen_files w) (chosen_output w)
                (console w) (dialogs w)).

(** [os.path.getsize(path)] *)
Definition getsize (path : string) : Py Z :=
  fun w =>
    match fs w !! path with
    | Some f => (Return (nbytes f), w)
    | None => (Raise (mkExc OSError "No such file or directory"), w)
    end.

(** [os.path.basename(path)]: what follows the last slash. *)
Fixpoint basename (path : string) : string :=
  match path with
  | EmptyString => EmptyString
  | String c rest =>
      if Ascii.eqb c "/"%char then basename rest
      else if existsb (Ascii.eqb "/"%char) (list_ascii_of_string rest) then basename rest
      else path
  end.

(** ** The script *)

Section Script.

Context `{Codec}.

(** The two dialogs return what the user chose; a cancelled dialog returns
    the empty tuple, respectively the empty string. *)
Definition select_jpeg_files : Py (list string) :=
  fun w => (Return (chosen_files w), w).

Definition select_output_path : Py string :=
  fun w => (Return (chosen_output w), w).

(** [except (AttributeError, KeyError, TypeError)] *)
Definition exif_errors (c : ExcClass) : bool :=
  match c with
  | AttributeError | KeyError | TypeError => true
  | _ => false
  end.

Definition apply_exif_orientation (image : Image) (file_path : string) : Py Image :=
  try_except
    (exif <- call (getexif image) ;;
     match exif with
     | Some exif =>
         let orientation := default PyNone (exif !! 274%Z) in
         if truthy orientation then
           if eq_int orientation 3 then
             image <- call (rotate image Deg180) ;;
             print (LogRotated 180 orientation) ;;
             ret image
           else if eq_int orientation 6 then
             image <- call (rotate image Deg270) ;;
             print (LogRotated 270 orientation) ;;
             ret image
           else if eq_int orientation 8 then
             image <- call (rotate image Deg90) ;;
             print (LogRotated 90 orientation) ;;
             ret image
           else if eq_int orientation 1 then
             print (LogNoRotationNeeded orientation) ;;
             ret image
           else
             print (LogUnsupported orientation) ;;
             ret image
         else ret image
     | None => ret image
     end)
    exif_errors
    (fun e => print LogNoExif ;; ret image).

(** The body of [for i, file_path in enumerate(jpeg_files, 1)]: [total] is
    [len(jpeg_files)], [files] what is left to visit, [processed_images]
    the list appended to so far.  The [continue] of the inner handler is
    the recursive call that leaves [processed_images] as it is. *)
Fixpoint process_files (total i : nat) (files : list string)
    (processed_images : list Image) : Py (list Image) :=
  match files with
  | [] => ret processed_images
  | file_path :: rest =>
      print (LogProcessing i total (basename file_path)) ;;
      opened <- try_except
                  (img <- Image_open file_path ;;
                   print (LogOpened (fst (size img)) (snd (size img)) (mode img)) ;;
                   ret (Some img))
                  any_exception
                  (fun e => print (LogOpenFailed (exc_str e)) ;; ret None) ;;
      match opened with
      | None => process_files total (S i) rest processed_images
      | Some img =>
          img <- apply_exif_orientation img file_path ;;
          img <- (if negb (String.eqb (mode img) "RGB") then
                    let original_mode := mode img in
                    img <- call (convert_RGB img) ;;
                    print (LogConverted original_mode) ;;
                    ret img
                  else
                    print LogAlreadyRGB ;;
                    ret img) ;;
          let processed_images := processed_images ++ [img] in
          print LogProcessed ;;
          process_files total (S i) rest processed_images
      end
  end.

Definition convert_jpegs_to_pdf (jpeg_files : list string) (output_path : string)
    : Py bool :=
  match jpeg_files with
  | [] => print LogNoFilesSelected ;; ret false
  | _ :: _ =>
      if String.eqb output_path "" then
        print LogNoOutputPath ;; ret false
      else
        try_except
          (print (LogProcessingCount (length jpeg_files)) ;;
           processed_images <- process_files (length jpeg_files) 1 jpeg_files [] ;;
           match processed_images with
           | [] => print LogNoneProcessed ;; ret false
           | first :: _ =>
               print (LogCreating (length processed_images)) ;;
               Image_save first output_path
                 (if 1 <? length processed_images
                  then drop 1 processed_images else [])
                 100 ;;
               print LogCreated ;;
               print (LogOutputLocation output_path) ;;
               bytes <- getsize output_path ;;
               print (LogFileSize bytes) ;;
               ret true
           end)
          any_exception
          (fun e =>
             let error_msg := "Failed to create PDF: " +:+ exc_str e in
             print (LogError error_msg) ;;
             show (ShowError "Conversion Error" error_msg) ;;
             ret false)
  end.

(** [for i, file_path in enumerate(jpeg_files, 1)] of [main]. *)
Fixpoint list_selected (i : nat) (files : list string) : Py unit :=
  match files with
  | [] => ret tt
  | file_path :: rest =>
      file_size <- getsize file_path ;;
      print (LogSelectedFile i (basename file_path) file_size) ;;
      list_selected (S i) rest
  end.

Definition main : Py unit :=
  print LogBanner ;;
  print LogStep1 ;;
  jpeg_files <- select_jpeg_files ;;
  match jpeg_files with
  | [] => print LogCancelledFiles ;; print LogGoodbye
  | _ :: _ =>
      print (LogSelected (length jpeg_files)) ;;
      list_selected 1 jpeg_files ;;
      print LogStep2 ;;
      output_path <- select_output_path ;;
      if String.eqb output_path "" then
        print LogCancelledOutput ;; print LogGoodbye
      else
        print (LogSavedAs (basename output_path)) ;;
        print LogStep3 ;;
        conversion_success <- convert_jpegs_to_pdf jpeg_files output_path ;;
        (if conversion_success : bool then
           bytes <- getsize output_path ;;
           show (ShowInfo (mkSuccess (length jpeg_files) output_path bytes)) ;;
           print LogCompleted
         else
           print LogFailed) ;;
        print LogThanks
  end.

End Script.

(** ** Sample data *)

Module Sample.

(** Grey to RGB repeats the band, RGBA to RGB drops alpha; no other mode
    converts.  A document takes three bytes per pixel. *)
#[export] Instance codec : Codec := {|
  rgb_pixel m :=
    if String.eqb m "L" then Some (fun p => p ++ p ++ p)
    else if String.eqb m "RGBA" then Some (take 3)
    else if String.eqb m "RGB" then Some id
    else None;
  pdf_nbytes pages :=
    fold_right (fun im n => (n + 3 * Z.of_nat (width im * height im))%Z) 0%Z pages;
  unfinished_nbytes pages :=
    fold_right (fun im n => (n + 3 * Z.of_nat (width im * height im))%Z) 0%Z pages
|}.

Definition exif_with (orientation : PyVal) : Result (option (gmap Z PyVal)) :=
  Return (Some (<[274%Z := orientation]> ∅)).

(** A 3 by 2 RGB raster. *)
Definition rgb_pixels : list (list Pixel) :=
  [ [ [10; 0; 0]; [20; 0; 0]; [30; 0; 0] ];
    [ [40; 0; 0]; [50; 0; 0]; [60; 0; 0] ] ]%Z.

Definition photo (orientation : PyVal) : Image :=
  mkImage (3, 2) "RGB" rgb_pixels (exif_with orientation) None None.

(** A 2 by 1 greyscale scan without an EXIF block. *)
Definition scan : Image :=
  mkImage (2, 1) "L" [ [ [7]; [9] ] ]%Z (Return None) None None.

(** A JPEG whose EXIF segment does not start with a TIFF header. *)
Definition damaged_exif : Image :=
  mkImage (3, 2) "RGB" rgb_pixels
    (Raise (mkExc SyntaxError "not a TIFF file")) None None.

(** A JPEG that opens but whose data is cut short. *)
Definition truncated : Image :=
  mkImage (3, 2) "RGB" rgb_pixels (exif_with (PyInt 3))
    (Some (mkExc OSError "image file is truncated")) None.

Definition disk : gmap string File :=
  <["/in/a.jpg" := mkFile (ImageFile (photo (PyInt 6))) 900]>
  (<["/in/b.jpg" := mkFile (ImageFile scan) 300]>
  (<["/in/notes.txt" := mkFile (Unreadable (mkExc OSError "cannot identify image file")) 12]>
  (<["/in/bad_exif.jpg" := mkFile (ImageFile damaged_exif) 800]>
  (<["/in/cut.jpg" := mkFile (ImageFile truncated) 400]> ∅))))%Z.

Definition world (files : list string) (output : string) : World :=
  mkWorld disk (<["/readonly/out.pdf" := mkExc OSError "Permission denied"]> ∅)
          files output [] [].

(** The world before anything is selected. *)
Definition w0 : World := world [] "".

(** An upright RGB photo: nothing decodes it before the document is
    written.  The same with its data cut short. *)
Definition plain : Image := photo (PyInt 1).

Definition plain_cut : Image :=
  mkImage (3, 2) "RGB" rgb_pixels (exif_with (PyInt 1))
    (Some (mkExc OSError "image file is truncated")) None.

(** A folder with these two, a photo to rotate and an older document. *)
Definition album : World :=
  mkWorld
    (<["/album/a.jpg" := mkFile (ImageFile (photo (PyInt 6))) 900]>
    (<["/album/plain.jpg" := mkFile (ImageFile plain) 700]>
    (<["/album/cut.jpg" := mkFile (ImageFile plain_cut) 350]>
    (<["/album/old.pdf" := mkFile (PdfDocument [plain] 100) 18]> ∅))))%Z
    ∅ [] "" [] [].

(** Four selected paths, one of which is not an image and one of which is
    selected twice. *)
Definition selection : list string :=
  ["/in/a.jpg"; "/in/notes.txt"; "/in/b.jpg"; "/in/a.jpg"].

(** The world after converting [selection] once, and once more. *)
Definition w1 : World := snd (convert_jpegs_to_pdf selection "/out/x.pdf" w0).
Definition w2 : World := snd (convert_jpegs_to_pdf selection "/out/y.pdf" w1).

End Sample.

(** ** What the script computes, without the narration *)

Section Denotation.

Context `{Codec}.

(** The value of [exif.get(274)] as [apply_exif_orientation] obtains it:
    whatever [_getexif] raises, [None] without an EXIF block or without
    the tag, the tag's value otherwise. *)
Definition read_orientation (image : Image) : Result PyVal :=
  match getexif image with
  | Raise e => Raise e
  | Return None => Return PyNone
  | Return (Some exif) => Return (default PyNone (exif !! 274%Z))
  end.

(** The branch of the [if]/[elif] chain a tag value selects. *)
Definition rotation_for (orientation : PyVal) : option Angle :=
  if eq_int orientation 3 then Some Deg180
  else if eq_int orientation 6 then Some Deg270
  else if eq_int orientation 8 then Some Deg90
  else None.

Definition handled (image : Image) (e : Exception) : Result Image :=
  if exif_errors (exc_class e) then Return image else Raise e.

(** The value [apply_exif_orientation] returns or the exception it lets
    through. *)
Definition upright (image : Image) : Result Image :=
  match read_orientation image with
  | Raise e => handled image e
  | Return orientation =>
      match rotation_for orientation with
      | None => Return image
      | Some angle =>
          match rotate image angle with
          | Raise e => handled image e
          | Return rotated => Return rotated
          end
      end
  end.

(** Steps b and c of the loop for one opened image. *)
Definition page_of (img : Image) : Result Image :=
  match upright img with
  | Raise e => Raise e
  | Return img =>
      if negb (String.eqb (mode img) "RGB") then convert_RGB img
      else Return img
  end.

(** The images the loop gets to see: the inputs that open, in input order,
    once per occurrence. *)
Fixpoint opened_images (files : gmap string File) (jpeg_files : list string)
    : list Image :=
  match jpeg_files with
  | [] => []
  | fp :: rest =>
      match open files fp with
      | Return img => img :: opened_images files rest
      | Raise _ => opened_images files rest
      end
  end.

Definition fails_to_open (files : gmap string File) (fp : string) : bool :=
  is_raise (open files fp).

(** The pages of [imgs], or the first exception one of them raises. *)
Fixpoint pages_of (imgs : list Image) : Result (list Image) :=
  match imgs with
  | [] => Return []
  | img :: rest =>
      match page_of img with
      | Raise e => Raise e
      | Return page =>
          match pages_of rest with
          | Raise e => Raise e
          | Return pages => Return (page :: pages)
          end
      end
  end.

(** Two worlds that differ at most in what was printed. *)
Definition quiet (w w' : World) : Prop :=
  fs w' = fs w /\ write_faults w' = write_faults w /\ dialogs w' = dialogs w.

(** The dialog of the outer handler. *)
Definition error_dialog (e : Exception) : Dialog :=
  ShowError "Conversion Error" ("Failed to create PDF: " +:+ exc_str e).

(** How the [try] block of [convert_jpegs_to_pdf] ends. *)
Inductive Outcome :=
  | Written (files : gmap string File)
  | NoPages
  | Failed (e : Exception) (files : gmap string File).

Definition attempt (w : World) (jpeg_files : list string) (output_path : string)
    : Outcome :=
  match pages_of (opened_images (fs w) jpeg_files) with
  | Raise e => Failed e (fs w)
  | Return [] => NoPages
  | Return (first :: rest) =>
      match save (fs w) (write_faults w) first output_path rest 100 with
      | (Raise e, files) => Failed e files
      | (Return _, files) => Written files
      end
  end.

(** The files an outcome leaves, [files] being those before the call. *)
Definition files_after (files : gmap string File) (o : Outcome) : gmap string File :=
  match o with
  | Written files' => files'
  | NoPages => files
  | Failed _ files' => files'
  end.

(** The dialogs an outcome adds. *)
Definition dialogs_of (o : Outcome) : list Dialog :=
  match o with
  | Failed e _ => [error_dialog e]
  | _ => []
  end.

Definition succeeded (o : Outcome) : bool :=
  match o with Written _ => true | _ => false end.

(** [w] after the lines [ls] were printed. *)
Definition logged (w : World) (ls : list LogLine) : World :=
  mkWorld (fs w) (write_faults w) (chosen_files w) (chosen_output w)
          (console w ++ ls) (dialogs w).

(** How a call of [convert_jpegs_to_pdf] ends: a failed validation writes
    nothing and raises nothing, like a run without pages. *)
Definition conversion (w : World) (jpeg_files : list string) (output_path : string)
    : Outcome :=
  match jpeg_files with
  | [] => NoPages
  | _ :: _ => if String.eqb output_path "" then NoPages
              else attempt w jpeg_files output_path
  end.

(** [os.path.getsize(path)] of a file that is there. *)
Definition size_at (files : gmap string File) (path : string) : Z :=
  match files !! path with Some f => nbytes f | None => 0 end.

(** [os.path.exists(path)] *)
Definition on_disk (files : gmap string File) (path : string) : bool :=
  match files !! path with Some _ => true | None => false end.

End Denotation.

(** ** Properties *)

Section Properties.

Context `{Codec}.

Lemma quiet_refl w : quiet w w.
Proof. by repeat split. Qed.

(** A falsy value equals no non-zero integer. *)
Lemma falsy_eq_int v k : truthy v = false -> k <> 0%Z -> eq_int v k = false.
Proof.
  intros Hfalsy Hk.
  destruct v as [|b|n|q|s|items|truth]; simpl in *; try done.
  - subst b. by apply Z.eqb_neq.
  - apply negb_false_iff, Z.eqb_eq in Hfalsy. subst n. by apply Z.eqb_neq.
  - apply negb_false_iff, Qeq_bool_iff in Hfalsy.
    apply not_true_is_false. intros Heq. apply Qeq_bool_iff in Heq.
    rewrite Hfalsy in Heq. unfold Qeq in Heq. simpl in Heq. lia.
Qed.

(** [apply_exif_orientation] returns [upright image] and only prints. *)
Lemma apply_exif_orientation_denotes image file_path w :
  fst (apply_exif_orientation image file_path w) = upright image /\
  quiet w (snd (apply_exif_orientation image file_path w)).
Proof.
  unfold apply_exif_orientation, upright, read_orientation, rotation_for,
    handled, try_except, bind, call, ret, rotate, load.
  destruct (getexif image) as [[exif|]|e]; simpl.
  - destruct (exif !! 274%Z) as [v|]; simpl; [|split; [done|apply quiet_refl]].
    destruct (truthy v) eqn:Ht.
    + destruct (eq_int v 3); simpl.
      { destruct (load_error image) as [e|]; simpl;
          [destruct (exif_errors (exc_class e))|]; simpl;
          by repeat split. }
      destruct (eq_int v 6); simpl.
      { destruct (load_error image) as [e|]; simpl;
          [destruct (exif_errors (exc_class e))|]; simpl;
          by repeat split. }
      destruct (eq_int v 8); simpl.
      { destruct (load_error image) as [e|]; simpl;
          [destruct (exif_errors (exc_class e))|]; simpl;
          by repeat split. }
      destruct (eq_int v 1); simpl; by repeat split.
    + rewrite !(falsy_eq_int v) by done.
      split; [done|apply quiet_refl].
  - split; [done|apply quiet_refl].
  - destruct (exif_errors (exc_class e)); simpl; by repeat split.
Qed.

Lemma apply_exif_orientation_run image file_path w :
  exists w', quiet w w' /\
    apply_exif_orientation image file_path w = (upright image, w').
Proof.
  destruct (apply_exif_orientation_denotes image file_path w) as [Hv Hq].
  exists (snd (apply_exif_orientation image file_path w)).
  split; [done|]. rewrite <- Hv. by destruct (apply_exif_orientation _ _ _).
Qed.

(** The loop appends the pages of the inputs that open, or lets the first
    exception of a later step through; it only prints. *)
Lemma process_files_denotes total files : forall i acc w,
  exists w', quiet w w' /\
    process_files total i files acc w =
      (match pages_of (opened_images (fs w) files) with
       | Return pages => Return (acc ++ pages)
       | Raise e => Raise e
       end, w').
Proof.
  induction files as [|fp rest IH]; intros i acc w; simpl.
  - exists w. split; [apply quiet_refl | by rewrite app_nil_r].
  - unfold bind at 1. simpl. unfold bind at 1. unfold try_except, Image_open.
    unfold bind at 1. simpl.
    destruct (open (fs w) fp) as [img|e] eqn:Hopen; simpl.
    + unfold bind at 1.
      match goal with |- context [apply_exif_orientation img fp ?w1] =>
        destruct (apply_exif_orientation_run img fp w1) as (w2 & Hq2 & ->)
      end.
      unfold page_of. destruct (upright img) as [img'|e]; simpl.
      2:{ eexists. split; [|reflexivity]. unfold quiet in *; simpl in *. done. }
      unfold bind at 1.
      destruct (negb (mode img' =? "RGB")%string); simpl.
      * unfold bind at 1, call at 1.
        destruct (convert_RGB img') as [page|e]; simpl.
        2:{ eexists. split; [|reflexivity]. unfold quiet in *; simpl in *. done. }
        unfold bind, print; simpl.
        match goal with |- context [process_files total (S i) rest ?a ?w3] =>
          destruct (IH (S i) a w3) as (w4 & Hq4 & ->)
        end.
        exists w4. unfold quiet in *; simpl in *.
        destruct Hq2 as (F2 & G2 & D2), Hq4 as (F4 & G4 & D4).
        rewrite F2. split; [repeat split; congruence|].
        destruct (pages_of _); [|done]. by rewrite <- app_assoc.
      * unfold bind, print, ret; simpl.
        match goal with |- context [process_files total (S i) rest ?a ?w3] =>
          destruct (IH (S i) a w3) as (w4 & Hq4 & ->)
        end.
        exists w4. unfold quiet in *; simpl in *.
        destruct Hq2 as (F2 & G2 & D2), Hq4 as (F4 & G4 & D4).
        rewrite F2. split; [repeat split; congruence|].
        destruct (pages_of _); [|done]. by rewrite <- app_assoc.
    + match goal with |- context [process_files total (S i) rest ?a ?w3] =>
        destruct (IH (S i) a w3) as (w4 & Hq4 & ->)
      end.
      exists w4. unfold quiet in *; simpl in *. by split.
Qed.

Lemma append_images_tail (first : Image) rest :
  (if 1 <? length (first :: rest) then drop 1 (first :: rest) else []) = rest.
Proof. by destruct rest. Qed.

(** A [save] that returns has written the document. *)
Lemma save_written files faults first output_path rest resolution u files' :
  save files faults first output_path rest resolution = (Return u, files') ->
  files' = <[output_path := mkFile (PdfDocument (first :: rest) resolution)
                                   (pdf_nbytes (first :: rest))]> files.
Proof.
  unfold save. destruct (load first); [|done].
  destruct (faults !! output_path); [done|].
  destruct (write_pages output_path rest [first]) as [[?|?] written]; [|done].
  by intros [= _ <-].
Qed.

(** [convert_jpegs_to_pdf] past its two validations. *)
Lemma convert_denotes jpeg_files output_path w :
  jpeg_files <> [] -> output_path <> "" ->
  exists w',
    convert_jpegs_to_pdf jpeg_files output_path w
      = (Return (succeeded (attempt w jpeg_files output_path)), w') /\
    write_faults w' = write_faults w /\
    fs w' = files_after (fs w) (attempt w jpeg_files output_path) /\
    dialogs w' = dialogs w ++ dialogs_of (attempt w jpeg_files output_path).
Proof.
  intros Hfiles Hout. unfold convert_jpegs_to_pdf, attempt.
  destruct jpeg_files as [|fp0 files0]; [done|]. clear Hfiles.
  destruct (String.eqb output_path "") eqn:E; [by apply String.eqb_eq in E|].
  clear E. remember (fp0 :: files0) as jpeg_files eqn:Hfiles. clear Hfiles.
  unfold try_except. unfold bind at 1. unfold print at 1. cbv iota beta.
  unfold bind at 1.
  match goal with |- context [process_files ?t ?i jpeg_files ?a ?w1] =>
    destruct (process_files_denotes t jpeg_files i a w1) as (w2 & Hq & ->)
  end.
  unfold quiet in Hq; simpl in Hq. destruct Hq as (F & G & D).
  simpl fs. simpl app.
  destruct (pages_of (opened_images (fs w) jpeg_files)) as [[|first rest]|e].
  - eexists. split; [reflexivity|]. simpl. by rewrite app_nil_r.
  - rewrite append_images_tail.
    unfold bind at 1. unfold print at 1. cbv iota beta.
    unfold bind at 1. unfold Image_save. simpl fs. simpl write_faults.
    rewrite F, G.
    destruct (save (fs w) (write_faults w) first output_path rest 100)
      as [[u|e] files] eqn:Hsave.
    + unfold bind, print, getsize, ret; simpl.
      assert (files !! output_path = Some (mkFile (PdfDocument (first :: rest) 100)
                                           (pdf_nbytes (first :: rest)))) as ->.
      { apply save_written in Hsave as ->. apply lookup_insert_eq. }
      eexists. split; [reflexivity|]. simpl. by rewrite app_nil_r.
    + eexists. split; [reflexivity|]. simpl. by rewrite D.
  - eexists. split; [reflexivity|]. simpl. by rewrite F, D.
Qed.

(** *** The orientation table *)

Lemma rotation_for_other v :
  eq_int v 3 = false -> eq_int v 6 = false -> eq_int v 8 = false ->
  rotation_for v = None.
Proof. intros N3 N6 N8. unfold rotation_for. by rewrite N3, N6, N8. Qed.

(** A value equals at most one integer. *)
Lemma eq_int_unique v a b : eq_int v a = true -> eq_int v b = true -> a = b.
Proof.
  destruct v as [|c|n|q|s|items|truth]; simpl; try done.
  - intros Ha Hb. apply Z.eqb_eq in Ha, Hb. congruence.
  - intros Ha Hb. apply Z.eqb_eq in Ha, Hb. congruence.
  - intros Ha Hb. apply Qeq_bool_iff in Ha, Hb. rewrite Ha in Hb.
    unfold Qeq in Hb. simpl in Hb. lia.
Qed.

Lemma rotation_for_code v :
  (eq_int v 3 = true -> rotation_for v = Some Deg180) /\
  (eq_int v 6 = true -> rotation_for v = Some Deg270) /\
  (eq_int v 8 = true -> rotation_for v = Some Deg90).
Proof.
  unfold rotation_for. repeat split; intros Hk.
  - by rewrite Hk.
  - destruct (eq_int v 3) eqn:H3; [by pose proof (eq_int_unique v _ _ H3 Hk)|].
    by rewrite Hk.
  - destruct (eq_int v 3) eqn:H3; [by pose proof (eq_int_unique v _ _ H3 Hk)|].
    destruct (eq_int v 6) eqn:H6; [by pose proof (eq_int_unique v _ _ H6 Hk)|].
    by rewrite Hk.
Qed.

Lemma upright_rotates image angle v :
  load_error image = None ->
  read_orientation image = Return v ->
  rotation_for v = Some angle ->
  upright image =
    Return (transpose image match angle with
                            | Deg90 => ROTATE_90
                            | Deg180 => ROTATE_180
                            | Deg270 => ROTATE_270
                            end).
Proof.
  intros Hload Hread Hrot. unfold upright, rotate, load.
  by rewrite Hread, Hrot, Hload.
Qed.

Lemma upright_keeps image v :
  read_orientation image = Return v -> rotation_for v = None ->
  upright image = Return image.
Proof. intros Hread Hrot. unfold upright. by rewrite Hread, Hrot. Qed.

(** The table of [apply_exif_orientation] for a decoded image whose tag
    reads as [v], whatever the type of [v]: the image rotated by 180 degrees
    when [v] equals 3, by 270 degrees counter-clockwise when it equals 6 and
    by 90 degrees counter-clockwise when it equals 8, each as Pillow's
    canvas-expanding transposition; the image itself for every value that
    equals none of the three (1, 2, 4, 5, 7, an absent tag, which reads as
    [None], and any other value). *)
Lemma apply_exif_orientation_table image file_path w v :
  load_error image = None ->
  read_orientation image = Return v ->
  let returned := fst (apply_exif_orientation image file_path w) in
  (eq_int v 3 = true -> returned = Return (transpose image ROTATE_180)) /\
  (eq_int v 6 = true -> returned = Return (transpose image ROTATE_270)) /\
  (eq_int v 8 = true -> returned = Return (transpose image ROTATE_90)) /\
  (eq_int v 3 = false -> eq_int v 6 = false -> eq_int v 8 = false ->
     returned = Return image).
Proof.
  intros Hload Hread returned. subst returned.
  destruct (apply_exif_orientation_denotes image file_path w) as [-> _].
  destruct (rotation_for_code v) as (R3 & R6 & R8).
  repeat split.
  - intros Hk. by apply (upright_rotates image Deg180 v); [..|apply R3].
  - intros Hk. by apply (upright_rotates image Deg270 v); [..|apply R6].
  - intros Hk. by apply (upright_rotates image Deg90 v); [..|apply R8].
  - intros N3 N6 N8.
    apply (upright_keeps image v); [done|by apply rotation_for_other].
Qed.

(** *** Canvas-expanding rotation *)

Lemma raster_length w h f : length (raster w h f) = h.
Proof. unfold raster. by rewrite length_map, length_seq. Qed.

Lemma raster_rows w h f :
  forallb (fun row => length row =? w) (raster w h f) = true.
Proof.
  unfold raster. apply forallb_forall. intros row Hin.
  apply in_map_iff in Hin as (y & <- & _).
  rewrite length_map, length_seq. apply Nat.eqb_refl.
Qed.

Lemma nth_map_seq {A} (g : nat -> A) n i d :
  i < n -> nth i (map g (seq 0 n)) d = g i.
Proof.
  intros Hi.
  rewrite (nth_indep _ d (g 0)) by (by rewrite length_map, length_seq).
  rewrite map_nth. by rewrite seq_nth.
Qed.

Lemma raster_nth w h f x y :
  x < w -> y < h -> nth x (nth y (raster w h f) []) [] = f x y.
Proof.
  intros Hx Hy. unfold raster.
  rewrite nth_map_seq by done. by rewrite nth_map_seq.
Qed.

Lemma derived_well_formed w h m f : well_formed (derived (w, h) m (raster w h f)).
Proof. split; [apply raster_length | apply raster_rows]. Qed.

(** C7. For tags 6 and 8 the returned image has the input's width and
    height swapped, for tag 3 it has the input's dimensions; in each case
    the pixel data fills exactly those dimensions and every pixel of the
    input is present at its rotated position, so nothing is cropped. *)
Theorem apply_exif_orientation_expands image file_path w :
  well_formed image -> load_error image = None ->
  let returned := fst (apply_exif_orientation image file_path w) in
  let W := width image in
  let H := height image in
  (read_orientation image = Return (PyInt 6) ->
     exists out, returned = Return out /\ size out = (H, W) /\ well_formed out /\
       forall x y, x < W -> y < H -> getpixel out (H - 1 - y) x = getpixel image x y) /\
  (read_orientation image = Return (PyInt 8) ->
     exists out, returned = Return out /\ size out = (H, W) /\ well_formed out /\
       forall x y, x < W -> y < H -> getpixel out y (W - 1 - x) = getpixel image x y) /\
  (read_orientation image = Return (PyInt 3) ->
     exists out, returned = Return out /\ size out = (W, H) /\ well_formed out /\
       forall x y, x < W -> y < H ->
         getpixel out (W - 1 - x) (H - 1 - y) = getpixel image x y).
Proof.
  intros Hwf Hload returned W H'. subst returned W H'.
  destruct (apply_exif_orientation_denotes image file_path w) as [-> _].
  repeat split; intros Hread.
  - rewrite (upright_rotates image Deg270 (PyInt 6)) by done.
    eexists. split; [reflexivity|]. split; [done|].
    split; [apply derived_well_formed|].
    intros x y Hx Hy. unfold getpixel at 1. simpl.
    rewrite raster_nth by lia. f_equal; lia.
  - rewrite (upright_rotates image Deg90 (PyInt 8)) by done.
    eexists. split; [reflexivity|]. split; [done|].
    split; [apply derived_well_formed|].
    intros x y Hx Hy. unfold getpixel at 1. simpl.
    rewrite raster_nth by lia. f_equal; lia.
  - rewrite (upright_rotates image Deg180 (PyInt 3)) by done.
    eexists. split; [reflexivity|]. split; [done|].
    split; [apply derived_well_formed|].
    intros x y Hx Hy. unfold getpixel at 1. simpl.
    rewrite raster_nth by lia. f_equal; lia.
Qed.

(** *** The page collection *)

Lemma opened_images_length files jpeg_files :
  length (opened_images files jpeg_files)
  + length (List.filter (fails_to_open files) jpeg_files)
  = length jpeg_files.
Proof.
  unfold fails_to_open.
  induction jpeg_files as [|fp rest IH]; simpl; [done|].
  destruct (open files fp); simpl; lia.
Qed.

Lemma opened_images_ext files1 files2 jpeg_files :
  (forall fp, In fp jpeg_files -> files1 !! fp = files2 !! fp) ->
  opened_images files1 jpeg_files = opened_images files2 jpeg_files.
Proof.
  induction jpeg_files as [|fp rest IH]; intros Hsame; simpl; [done|].
  rewrite IH by (intros fp' Hin; apply Hsame; by right).
  unfold open. by rewrite (Hsame fp) by (by left).
Qed.

Lemma opened_images_In files jpeg_files fp img :
  In fp jpeg_files -> open files fp = Return img ->
  In img (opened_images files jpeg_files).
Proof.
  induction jpeg_files as [|fp' rest IH]; intros Hin Hopen; simpl in *; [done|].
  destruct Hin as [->|Hin].
  - rewrite Hopen. by left.
  - destruct (open files fp'); [right|]; by apply IH.
Qed.

Lemma pages_of_Forall2 imgs pages :
  pages_of imgs = Return pages ->
  Forall2 (fun img page => page_of img = Return page) imgs pages.
Proof.
  revert pages.
  induction imgs as [|img rest IH]; intros pages Hpages; simpl in *.
  - injection Hpages as <-. constructor.
  - destruct (page_of img) as [page|] eqn:Hpage; [|done].
    destruct (pages_of rest) as [pages'|]; [|done].
    injection Hpages as <-. constructor; [done|by apply IH].
Qed.

Lemma pages_of_raises imgs img e :
  In img imgs -> page_of img = Raise e -> exists e', pages_of imgs = Raise e'.
Proof.
  induction imgs as [|img' rest IH]; intros Hin Hpage; simpl in *; [done|].
  destruct Hin as [->|Hin].
  - rewrite Hpage. by exists e.
  - destruct (page_of img'); [|by eexists].
    destruct (IH Hin Hpage) as [e' ->]. by exists e'.
Qed.

Lemma page_of_RGB img page : page_of img = Return page -> mode page = "RGB".
Proof.
  unfold page_of, convert_RGB. destruct (upright img) as [oriented|]; [|done].
  destruct (String.eqb_spec (mode oriented) "RGB") as [E|_]; simpl.
  - by intros [= <-].
  - destruct (load oriented); [|done].
    destruct (rgb_pixel (mode oriented)); [|done]. by intros [= <-].
Qed.

(** What a successful run leaves at the destination. *)
Lemma convert_success_document jpeg_files output_path w w' :
  convert_jpegs_to_pdf jpeg_files output_path w = (Return true, w') ->
  exists pages,
    pages <> [] /\
    pages_of (opened_images (fs w) jpeg_files) = Return pages /\
    fs w' = <[output_path := mkFile (PdfDocument pages 100) (pdf_nbytes pages)]> (fs w).
Proof.
  intros Hrun.
  destruct jpeg_files as [|fp0 files0] eqn:Hfiles; [done|]. rewrite <- Hfiles in *.
  destruct (String.eqb_spec output_path "") as [->|Hout].
  { subst jpeg_files. simpl in Hrun. done. }
  destruct (convert_denotes jpeg_files output_path w) as (w2 & Hrun2 & _ & Hfs & _);
    [by subst|done|].
  rewrite Hrun in Hrun2. injection Hrun2 as Hok <-.
  unfold attempt in *.
  destruct (pages_of (opened_images (fs w) jpeg_files)) as [[|first rest]|]; try done.
  destruct (save (fs w) (write_faults w) first output_path rest 100)
    as [[u|e] files] eqn:Hsave; [|done].
  apply save_written in Hsave as ->.
  by exists (first :: rest).
Qed.

(** C2. In a run that produces a document from [N] input paths of which
    [K] fail to open, the document has [N - K] pages: one for each input
    that opened, in input order, duplicates included. *)
Theorem convert_pages_follow_inputs jpeg_files output_path w w' :
  convert_jpegs_to_pdf jpeg_files output_path w = (Return true, w') ->
  exists pages,
    fs w' !! output_path
      = Some (mkFile (PdfDocument pages 100) (pdf_nbytes pages)) /\
    length pages
      = length jpeg_files - length (List.filter (fails_to_open (fs w)) jpeg_files) /\
    Forall2 (fun img page => page_of img = Return page)
            (opened_images (fs w) jpeg_files) pages.
Proof.
  intros Hrun.
  destruct (convert_success_document _ _ _ _ Hrun) as (pages & _ & Hpages & ->).
  exists pages. apply pages_of_Forall2 in Hpages.
  split; [apply lookup_insert_eq|]. split; [|done].
  apply Forall2_length in Hpages.
  pose proof (opened_images_length (fs w) jpeg_files). lia.
Qed.

(** C3. Every image the loop appends to the page collection is in RGB
    mode: an image that comes out of the orientation step in RGB mode is
    appended as it is, any other is appended as its conversion to RGB. *)
Theorem page_collection_is_RGB total i jpeg_files w pages w' :
  process_files total i jpeg_files [] w = (Return pages, w') ->
  Forall (fun page => mode page = "RGB") pages /\
  Forall2 (fun img page =>
             exists oriented,
               (forall file_path w0,
                  fst (apply_exif_orientation img file_path w0) = Return oriented) /\
               if String.eqb (mode oriented) "RGB" then page = oriented
               else convert_RGB oriented = Return page)
          (opened_images (fs w) jpeg_files) pages.
Proof.
  intros Hrun.
  destruct (process_files_denotes total jpeg_files i [] w) as (w2 & _ & Hrun2).
  rewrite Hrun in Hrun2. injection Hrun2 as Hpages _.
  destruct (pages_of (opened_images (fs w) jpeg_files)) as [pages'|] eqn:E; [|done].
  injection Hpages as ->. simpl. apply pages_of_Forall2 in E.
  clear Hrun. split.
  - induction E as [|img page imgs pages' Hpage _ IH]; [constructor|].
    constructor; [by apply (page_of_RGB img)|done].
  - induction E as [|img page imgs pages' Hpage _ IH]; [constructor|].
    constructor; [|done].
    unfold page_of in Hpage.
    destruct (upright img) as [oriented|] eqn:Hup; [|done].
    exists oriented. split.
    + intros file_path w0.
      by destruct (apply_exif_orientation_denotes img file_path w0) as [-> _].
    + destruct (String.eqb (mode oriented) "RGB"); simpl in Hpage; [|done].
      by injection Hpage.
Qed.

(** The run succeeds when the pages assemble and the document is written. *)
Lemma convert_succeeds jpeg_files output_path w first rest files :
  jpeg_files <> [] -> output_path <> "" ->
  pages_of (opened_images (fs w) jpeg_files) = Return (first :: rest) ->
  save (fs w) (write_faults w) first output_path rest 100 = (Return tt, files) ->
  exists w',
    convert_jpegs_to_pdf jpeg_files output_path w = (Return true, w') /\
    fs w' = files /\ dialogs w' = dialogs w.
Proof.
  intros Hfiles Hout Hpages Hsave.
  destruct (convert_denotes jpeg_files output_path w Hfiles Hout)
    as (w' & Hrun & _ & Hfs & Hdialogs).
  unfold attempt in *. rewrite Hpages, Hsave in *. simpl in *.
  exists w'. by rewrite app_nil_r in Hdialogs.
Qed.

(** *** Failing runs *)

Lemma none_open files jpeg_files :
  forallb (fails_to_open files) jpeg_files = true ->
  opened_images files jpeg_files = [].
Proof.
  unfold fails_to_open.
  induction jpeg_files as [|fp rest IH]; simpl; [done|].
  destruct (open files fp); simpl; [done|apply IH].
Qed.

(** C5. [convert_jpegs_to_pdf] returns [False] and leaves the file system
    as it was when the input collection is empty, when the destination
    path is empty, and when every input fails to open. *)
Theorem convert_fails_without_writing jpeg_files output_path w :
  (exists w', convert_jpegs_to_pdf [] output_path w = (Return false, w') /\
              fs w' = fs w) /\
  (exists w', convert_jpegs_to_pdf jpeg_files "" w = (Return false, w') /\
              fs w' = fs w) /\
  (forallb (fails_to_open (fs w)) jpeg_files = true ->
   exists w', convert_jpegs_to_pdf jpeg_files output_path w = (Return false, w') /\
              fs w' = fs w).
Proof.
  assert (Hempty : forall out, exists w',
             convert_jpegs_to_pdf [] out w = (Return false, w') /\ fs w' = fs w)
    by (intros out; by eexists).
  assert (Hblank : forall files, exists w',
             convert_jpegs_to_pdf files "" w = (Return false, w') /\ fs w' = fs w)
    by (intros [|fp rest]; by eexists).
  split; [apply Hempty|]. split; [apply Hblank|].
  intros Hnone.
  destruct jpeg_files as [|fp0 files0] eqn:Hfiles; [apply Hempty|].
  rewrite <- Hfiles in *.
  destruct (String.eqb_spec output_path "") as [->|Hout]; [apply Hblank|].
  destruct (convert_denotes jpeg_files output_path w) as (w' & Hrun & _ & Hfs & _);
    [by subst|done|].
  unfold attempt in *. rewrite (none_open _ _ Hnone) in *. simpl in *.
  by exists w'.
Qed.

(** C6. When the pages are assembled and writing the document raises,
    whatever the write leaves of the destination, [convert_jpegs_to_pdf]
    returns [False] (it does not raise), and shows an error dialog whose
    message ends with the text of the exception. *)
Theorem write_failure_is_reported jpeg_files output_path w first rest e files :
  jpeg_files <> [] -> output_path <> "" ->
  pages_of (opened_images (fs w) jpeg_files) = Return (first :: rest) ->
  save (fs w) (write_faults w) first output_path rest 100 = (Raise e, files) ->
  exists w',
    convert_jpegs_to_pdf jpeg_files output_path w = (Return false, w') /\
    dialogs w' = dialogs w ++
      [ShowError "Conversion Error" ("Failed to create PDF: " +:+ exc_str e)].
Proof.
  intros Hfiles Hout Hpages Hsave.
  destruct (convert_denotes jpeg_files output_path w Hfiles Hout)
    as (w' & Hrun & _ & _ & Hdialogs).
  unfold attempt in *. rewrite Hpages, Hsave in *. simpl in *.
  by exists w'.
Qed.

(** C9. Converting the same inputs twice, first to [out1] and then to a
    different [out2], leaves two documents with the same pages: the same
    number of pages, and image by image the same content.  The inputs are
    the same when the files at the input paths are, which the first run
    leaves so unless its destination is one of them. *)
Theorem conversion_is_repeatable jpeg_files out1 out2 w w1 w2 :
  out1 <> out2 ->
  convert_jpegs_to_pdf jpeg_files out1 w = (Return true, w1) ->
  (forall fp, In fp jpeg_files -> fs w1 !! fp = fs w !! fp) ->
  convert_jpegs_to_pdf jpeg_files out2 w1 = (Return true, w2) ->
  exists pages,
    fs w2 !! out1 = Some (mkFile (PdfDocument pages 100) (pdf_nbytes pages)) /\
    fs w2 !! out2 = Some (mkFile (PdfDocument pages 100) (pdf_nbytes pages)).
Proof.
  intros Hne Hrun1 Hsame Hrun2.
  destruct (convert_success_document _ _ _ _ Hrun1) as (pages1 & _ & Hp1 & Hfs1).
  destruct (convert_success_document _ _ _ _ Hrun2) as (pages2 & _ & Hp2 & Hfs2).
  rewrite (opened_images_ext _ _ _ Hsame), Hp1 in Hp2. injection Hp2 as <-.
  exists pages1. rewrite Hfs2, Hfs1. split.
  - rewrite lookup_insert_ne by done. apply lookup_insert_eq.
  - apply lookup_insert_eq.
Qed.

(** A run whose destination is none of its inputs leaves them as they
    were. *)
Lemma convert_keeps_inputs jpeg_files output_path w w' :
  ~ In output_path jpeg_files ->
  convert_jpegs_to_pdf jpeg_files output_path w = (Return true, w') ->
  forall fp, In fp jpeg_files -> fs w' !! fp = fs w !! fp.
Proof.
  intros Hnotin Hrun fp Hin.
  destruct (convert_success_document _ _ _ _ Hrun) as (pages & _ & _ & ->).
  apply lookup_insert_ne. by intros ->.
Qed.

(** C10. When an input opens and its orientation correction or its
    conversion to RGB then raises, the run fails as a whole:
    [convert_jpegs_to_pdf] returns [False], nothing is written, whatever
    pages were collected before are dropped, and (past the validation of
    the destination) the outer handler shows its error dialog. *)
Theorem later_step_failure_fails_run jpeg_files output_path w fp img e :
  In fp jpeg_files -> open (fs w) fp = Return img ->
  (fst (apply_exif_orientation img fp w) = Raise e \/
   exists oriented,
     fst (apply_exif_orientation img fp w) = Return oriented /\
     mode oriented <> "RGB" /\ convert_RGB oriented = Raise e) ->
  exists w',
    convert_jpegs_to_pdf jpeg_files output_path w = (Return false, w') /\
    fs w' = fs w /\
    (output_path <> "" -> exists e', dialogs w' = dialogs w ++ [error_dialog e']).
Proof.
  intros Hin Hopen Hraise.
  assert (Hpage : page_of img = Raise e).
  { destruct (apply_exif_orientation_denotes img fp w) as [Hv _].
    rewrite Hv in Hraise. unfold page_of.
    destruct Hraise as [->|(oriented & -> & Hmode & Hconv)]; [done|].
    by destruct (String.eqb_spec (mode oriented) "RGB"). }
  destruct (pages_of_raises _ _ _ (opened_images_In _ _ _ _ Hin Hopen) Hpage)
    as [e' Hpages].
  destruct (String.eqb_spec output_path "") as [->|Hout].
  { destruct jpeg_files as [|fp0 files0]; [done|].
    eexists. split; [reflexivity|]. by split. }
  destruct (convert_denotes jpeg_files output_path w) as (w' & Hrun & _ & Hfs & Hd);
    [by intros ->|done|].
  unfold attempt in *. rewrite Hpages in *. simpl in *.
  exists w'. repeat split; [done..|]. intros _. by exists e'.
Qed.

End Properties.

(** ** The properties on the sample data *)

Import Sample.

(** The table on sample tags: an integer, a float, and values that select
    no rotation. *)
Example apply_exif_orientation_table_sample :
  fst (apply_exif_orientation (photo (PyInt 3)) "/in/a.jpg" w0)
    = Return (transpose (photo (PyInt 3)) ROTATE_180) /\
  fst (apply_exif_orientation (photo (PyFloat (6 # 1))) "/in/a.jpg" w0)
    = Return (transpose (photo (PyFloat (6 # 1))) ROTATE_270) /\
  fst (apply_exif_orientation (photo (PyInt 8)) "/in/a.jpg" w0)
    = Return (transpose (photo (PyInt 8)) ROTATE_90) /\
  fst (apply_exif_orientation (photo (PyInt 5)) "/in/a.jpg" w0)
    = Return (photo (PyInt 5)) /\
  fst (apply_exif_orientation (photo (PyStr "top")) "/in/a.jpg" w0)
    = Return (photo (PyStr "top")) /\
  fst (apply_exif_orientation scan "/in/b.jpg" w0) = Return scan.
Proof.
  refine (conj _ (conj _ (conj _ (conj _ (conj _ _))))).
  - by apply (apply_exif_orientation_table _ _ _ (PyInt 3)).
  - by apply (apply_exif_orientation_table _ _ _ (PyFloat (6 # 1))).
  - by apply (apply_exif_orientation_table _ _ _ (PyInt 8)).
  - by apply (apply_exif_orientation_table _ _ _ (PyInt 5)).
  - by apply (apply_exif_orientation_table _ _ _ (PyStr "top")).
  - by apply (apply_exif_orientation_table _ _ _ PyNone).
Qed.

Lemma apply_exif_orientation_expands_witness :
  exists out,
    fst (apply_exif_orientation (photo (PyInt 6)) "/in/a.jpg" w0) = Return out /\
    size out = (2, 3) /\ well_formed out /\
    forall x y, x < 3 -> y < 2 ->
      getpixel out (2 - 1 - y) x = getpixel (photo (PyInt 6)) x y.
Proof.
  destruct (apply_exif_orientation_expands (photo (PyInt 6)) "/in/a.jpg" w0)
    as (T6 & _).
  - split; reflexivity.
  - reflexivity.
  - apply T6. reflexivity.
Defined.

Lemma convert_pages_follow_inputs_witness :
  exists pages,
    fs (snd (convert_jpegs_to_pdf selection "/out/x.pdf" w0)) !! "/out/x.pdf"
      = Some (mkFile (PdfDocument pages 100) (pdf_nbytes pages)) /\
    length pages
      = length selection - length (List.filter (fails_to_open (fs w0)) selection) /\
    Forall2 (fun img page => page_of img = Return page)
            (opened_images (fs w0) selection) pages.
Proof.
  apply (convert_pages_follow_inputs selection "/out/x.pdf" w0).
  vm_compute. reflexivity.
Defined.

Lemma page_collection_is_RGB_witness :
  let pages := [transpose (photo (PyInt 6)) ROTATE_270;
                derived (2, 1) "RGB" [[[7; 7; 7]; [9; 9; 9]]]%Z;
                transpose (photo (PyInt 6)) ROTATE_270] in
  Forall (fun page => mode page = "RGB") pages /\
  Forall2 (fun img page =>
             exists oriented,
               (forall file_path w,
                  fst (apply_exif_orientation img file_path w) = Return oriented) /\
               if String.eqb (mode oriented) "RGB" then page = oriented
               else convert_RGB oriented = Return page)
          (opened_images (fs w0) selection) pages.
Proof.
  apply (page_collection_is_RGB 4 1 selection w0 _
           (snd (process_files 4 1 selection [] w0))).
  vm_compute. reflexivity.
Defined.

Lemma convert_fails_without_writing_witness :
  exists w',
    convert_jpegs_to_pdf ["/in/notes.txt"; "/in/missing.jpg"] "/out/x.pdf" w0
      = (Return false, w') /\
    fs w' = fs w0.
Proof.
  destruct (convert_fails_without_writing
              ["/in/notes.txt"; "/in/missing.jpg"] "/out/x.pdf" w0)
    as (_ & _ & Tnone).
  apply Tnone. vm_compute. reflexivity.
Defined.

Lemma write_failure_is_reported_witness :
  exists w',
    convert_jpegs_to_pdf ["/in/a.jpg"; "/in/b.jpg"] "/readonly/out.pdf" w0
      = (Return false, w') /\
    dialogs w' = dialogs w0 ++
      [ShowError "Conversion Error" "Failed to create PDF: Permission denied"].
Proof.
  apply (write_failure_is_reported ["/in/a.jpg"; "/in/b.jpg"] "/readonly/out.pdf" w0
           (transpose (photo (PyInt 6)) ROTATE_270)
           [derived (2, 1) "RGB" [[[7; 7; 7]; [9; 9; 9]]]%Z]
           (mkExc OSError "Permission denied") (fs w0)).
  - discriminate.
  - discriminate.
  - vm_compute. reflexivity.
  - vm_compute. reflexivity.
Defined.

Lemma conversion_is_repeatable_witness :
  exists pages,
    fs w2 !! "/out/x.pdf" = Some (mkFile (PdfDocument pages 100) (pdf_nbytes pages)) /\
    fs w2 !! "/out/y.pdf" = Some (mkFile (PdfDocument pages 100) (pdf_nbytes pages)).
Proof.
  apply (conversion_is_repeatable selection "/out/x.pdf" "/out/y.pdf" w0 w1 w2).
  - discriminate.
  - vm_compute. reflexivity.
  - simpl. intros fp [<-|[<-|[<-|[<-|[]]]]]; vm_compute; reflexivity.
  - vm_compute. reflexivity.
Defined.

Lemma later_step_failure_fails_run_witness :
  exists w',
    convert_jpegs_to_pdf ["/in/a.jpg"; "/in/bad_exif.jpg"; "/in/b.jpg"] "/out/x.pdf" w0
      = (Return false, w') /\
    fs w' = fs w0 /\
    ("/out/x.pdf" <> "" -> exists e', dialogs w' = dialogs w0 ++ [error_dialog e']).
Proof.
  apply (later_step_failure_fails_run
           ["/in/a.jpg"; "/in/bad_exif.jpg"; "/in/b.jpg"] "/out/x.pdf" w0
           "/in/bad_exif.jpg" (opened_from "/in/bad_exif.jpg" damaged_exif)
           (mkExc SyntaxError "not a TIFF file")).
  - simpl. tauto.
  - vm_compute. reflexivity.
  - left. vm_compute. reflexivity.
Defined.

(** A file that opens but whose data is cut short fails the run in the same
    way, from inside [rotate]: the page collected before it is dropped. *)
Example truncated_input_fails_run :
  let r := convert_jpegs_to_pdf ["/in/a.jpg"; "/in/cut.jpg"] "/out/x.pdf" w0 in
  fst r = Return false /\
  fs (snd r) = fs w0 /\
  dialogs (snd r)
    = [ShowError "Conversion Error" "Failed to create PDF: image file is truncated"].
Proof. vm_compute. by repeat split. Qed.

(** A write that fails half-way replaces a destination that was there: the
    older document is gone although the run returns [False]. *)
Example failed_write_replaces_destination :
  let r := convert_jpegs_to_pdf ["/album/a.jpg"; "/album/cut.jpg"] "/album/old.pdf"
             album in
  fst r = Return false /\
  content <$> fs (snd r) !! "/album/old.pdf"
    = Some (UnfinishedPdf [transpose (photo (PyInt 6)) ROTATE_270]) /\
  dialogs (snd r)
    = [ShowError "Conversion Error" "Failed to create PDF: image file is truncated"].
Proof. vm_compute. by repeat split. Qed.

(** A destination that is itself an input not decoded yet is emptied before
    its page is read: the run fails and that input is lost. *)
Example destination_among_inputs :
  let r := convert_jpegs_to_pdf ["/album/a.jpg"; "/album/plain.jpg"]
             "/album/plain.jpg" album in
  fst r = Return false /\
  content <$> fs (snd r) !! "/album/plain.jpg"
    = Some (UnfinishedPdf [transpose (photo (PyInt 6)) ROTATE_270]) /\
  dialogs (snd r)
    = [ShowError "Conversion Error" "Failed to create PDF: image file is truncated"].
Proof. vm_compute. by repeat split. Qed.

(** ** Where the script departs from its description *)

(** An exception of [_getexif] outside the three handled classes passes
    through [apply_exif_orientation], with nothing printed. *)
Lemma unhandled_exif_error_escapes `{Codec} image file_path w e :
  getexif image = Raise e -> exif_errors (exc_class e) = false ->
  apply_exif_orientation image file_path w = (Raise e, w).
Proof.
  intros Hexif Hclass.
  unfold apply_exif_orientation, try_except, bind, call.
  by rewrite Hexif, Hclass.
Qed.

(** An exception of a handled class is swallowed: the image comes back as
    it was and one line is printed. *)
Lemma handled_exif_error_is_swallowed `{Codec} image file_path w e :
  getexif image = Raise e -> exif_errors (exc_class e) = true ->
  apply_exif_orientation image file_path w
    = (Return image, snd (print LogNoExif w)).
Proof.
  intros Hexif Hclass.
  unfold apply_exif_orientation, try_except, bind, call.
  by rewrite Hexif, Hclass.
Qed.

(** C1. The claim is that a decoded image comes back rotated as its tag
    says, and unchanged whenever no orientation is readable.  The table
    holds ([apply_exif_orientation_table]); but on [damaged_exif], a decoded
    image whose EXIF block cannot be read, no image comes back at all: the
    [SyntaxError] of [_getexif] is none of the errors the handler names and
    leaves the function (the defect of C4). *)
Theorem apply_exif_orientation_unreadable_exif_not_returned :
  load_error damaged_exif = None /\
  read_orientation damaged_exif = Raise (mkExc SyntaxError "not a TIFF file") /\
  fst (apply_exif_orientation damaged_exif "/in/bad_exif.jpg" w0)
    <> Return damaged_exif /\
  is_raise (fst (apply_exif_orientation damaged_exif "/in/bad_exif.jpg" w0)) = true.
Proof. repeat split. discriminate. Qed.

(** C4. The claim is that no state of the EXIF metadata makes
    [apply_exif_orientation] raise.  On a JPEG whose EXIF segment is not a
    TIFF block, [_getexif] raises [SyntaxError], which the handler does not
    name: the call raises, returns no image and prints nothing. *)
Theorem apply_exif_orientation_raises_on_damaged_exif :
  apply_exif_orientation damaged_exif "/in/bad_exif.jpg" w0
    = (Raise (mkExc SyntaxError "not a TIFF file"), w0).
Proof. reflexivity. Qed.

(** C8. The claim is that the page count of the success dialog is the number
    of pages of the document.  With four selected paths of which one does not
    open, the document has three pages and the dialog, built from
    [len(jpeg_files)], says four. *)
Theorem main_reports_selected_count :
  let w := snd (main (world selection "/out/x.pdf")) in
  exists pages bytes,
    fs w !! "/out/x.pdf" = Some (mkFile (PdfDocument pages 100) bytes) /\
    length pages = 3 /\
    dialogs w = [ShowInfo (mkSuccess 4 "/out/x.pdf" bytes)].
Proof.
  vm_compute. do 2 eexists. split; [reflexivity|]. split; reflexivity.
Qed.

(** ** Further properties of the script *)

Section Further.

Context `{Codec}.

Lemma logged_nil w : logged w [] = w.
Proof. destruct w. unfold logged. simpl. by rewrite app_nil_r. Qed.

Lemma logged_logged w ls1 ls2 : logged (logged w ls1) ls2 = logged w (ls1 ++ ls2).
Proof. unfold logged. simpl. by rewrite app_assoc. Qed.

Lemma print_logged l w : print l w = (Return tt, logged w [l]).
Proof. reflexivity. Qed.

(** *** Orientation correction *)

(** X1. [apply_exif_orientation] has no effect but narration: it prints at
    most one line and leaves the files, the dialogs and everything else of
    the world as they were, whether it returns or raises. *)
Theorem apply_exif_orientation_only_prints image file_path w :
  exists ls, length ls <= 1 /\
    snd (apply_exif_orientation image file_path w) = logged w ls.
Proof.
  assert (Hsame : exists ls, length ls <= 1 /\ w = logged w ls)
    by (exists []; split; [simpl; lia | by rewrite logged_nil]).
  assert (Hline : forall l, exists ls, length ls <= 1 /\ logged w [l] = logged w ls)
    by (intros l; exists [l]; split; [simpl; lia | done]).
  unfold apply_exif_orientation, try_except, bind, call, ret, rotate, load.
  destruct (getexif image) as [[exif|]|e]; simpl.
  - destruct (exif !! 274%Z) as [v|]; simpl; [|done].
    destruct (truthy v); [|done].
    destruct (eq_int v 3); simpl.
    { destruct (load_error image) as [e|]; simpl;
        [destruct (exif_errors (exc_class e))|]; simpl; [apply Hline|done|apply Hline]. }
    destruct (eq_int v 6); simpl.
    { destruct (load_error image) as [e|]; simpl;
        [destruct (exif_errors (exc_class e))|]; simpl; [apply Hline|done|apply Hline]. }
    destruct (eq_int v 8); simpl.
    { destruct (load_error image) as [e|]; simpl;
        [destruct (exif_errors (exc_class e))|]; simpl; [apply Hline|done|apply Hline]. }
    destruct (eq_int v 1); simpl; apply Hline.
  - done.
  - destruct (exif_errors (exc_class e)); simpl; [apply Hline|done].
Qed.

Lemma rotate_derived image angle rotated :
  rotate image angle = Return rotated ->
  exists sz px, rotated = derived sz (mode image) px /\
    fst sz * snd sz = width image * height image /\
    well_formed rotated.
Proof.
  unfold rotate. destruct (load image); [|done]. intros [= <-].
  destruct angle; simpl; eexists _, _;
    (split; [reflexivity|]); (split; [simpl; lia|apply derived_well_formed]).
Qed.

(** What [upright] returns is the image itself or a rotation of it. *)
Lemma upright_cases image out :
  upright image = Return out ->
  out = image \/ exists angle, rotate image angle = Return out.
Proof.
  unfold upright, handled.
  destruct (read_orientation image) as [v|e].
  - destruct (rotation_for v) as [angle|]; [|intros [= <-]; by left].
    destruct (rotate image angle) as [rotated|e] eqn:Hrot.
    + intros [= <-]. right. by exists angle.
    + destruct (exif_errors (exc_class e)); [|done]. intros [= <-]. by left.
  - destruct (exif_errors (exc_class e)); [|done]. intros [= <-]. by left.
Qed.

(** X2. Orientation correction is idempotent: given the image it returned,
    [apply_exif_orientation] returns that image unchanged, so a page is
    never rotated twice. *)
Theorem apply_exif_orientation_idempotent image file_path w out :
  fst (apply_exif_orientation image file_path w) = Return out ->
  forall file_path' w', fst (apply_exif_orientation out file_path' w') = Return out.
Proof.
  intros Hout file_path' w'.
  destruct (apply_exif_orientation_denotes image file_path w) as [Hv _].
  destruct (apply_exif_orientation_denotes out file_path' w') as [-> _].
  rewrite Hv in Hout.
  destruct (upright_cases _ _ Hout) as [->|[angle Hrot]]; [done|].
  destruct (rotate_derived _ _ _ Hrot) as (sz & px & -> & _).
  reflexivity.
Qed.

(** X3. Orientation correction keeps the colour mode and the number of
    pixels, and what it returns for a well-formed image is well formed. *)
Theorem apply_exif_orientation_keeps_mode_and_area image file_path w out :
  fst (apply_exif_orientation image file_path w) = Return out ->
  mode out = mode image /\
  width out * height out = width image * height image /\
  (well_formed image -> well_formed out).
Proof.
  intros Hout.
  destruct (apply_exif_orientation_denotes image file_path w) as [Hv _].
  rewrite Hv in Hout.
  destruct (upright_cases _ _ Hout) as [->|[angle Hrot]]; [done|].
  destruct (rotate_derived _ _ _ Hrot) as (sz & px & -> & Harea & Hwf).
  split; [done|]. split; [exact Harea|]. intros _. exact Hwf.
Qed.

(** *** The conversion as a whole *)

(** Whatever [save] does, it does to its destination. *)
Lemma save_touches_only_destination files faults first output_path rest resolution
    path :
  path <> output_path ->
  snd (save files faults first output_path rest resolution) !! path = files !! path.
Proof.
  intros Hpath. unfold save. destruct (load first); [|done].
  destruct (faults !! output_path); [done|].
  destruct (write_pages output_path rest [first]) as [[?|?] written]; simpl.
  - by apply lookup_insert_ne.
  - destruct (files !! output_path); [by apply lookup_insert_ne|done].
Qed.

Lemma convert_run jpeg_files output_path w :
  exists w',
    convert_jpegs_to_pdf jpeg_files output_path w
      = (Return (succeeded (conversion w jpeg_files output_path)), w') /\
    write_faults w' = write_faults w /\
    fs w' = files_after (fs w) (conversion w jpeg_files output_path) /\
    dialogs w' = dialogs w ++ dialogs_of (conversion w jpeg_files output_path).
Proof.
  destruct jpeg_files as [|fp0 files0] eqn:Hfiles.
  { eexists. split; [reflexivity|]. simpl. by rewrite app_nil_r. }
  rewrite <- Hfiles.
  destruct (String.eqb_spec output_path "") as [->|Hout].
  { subst jpeg_files. eexists. split; [reflexivity|]. simpl. by rewrite app_nil_r. }
  destruct (convert_denotes jpeg_files output_path w) as (w' & Hrun); [by subst|done|].
  exists w'. unfold conversion. subst jpeg_files.
  by destruct (String.eqb_spec output_path "").
Qed.

(** X4. [convert_jpegs_to_pdf] never raises: whatever the inputs, the
    destination and the state of the files, every exception is caught and
    the call returns a boolean. *)
Theorem convert_never_raises jpeg_files output_path w :
  exists (b : bool) w', convert_jpegs_to_pdf jpeg_files output_path w = (Return b, w').
Proof.
  destruct (convert_run jpeg_files output_path w) as (w' & Hrun & _).
  by eexists _, w'.
Qed.

(** X5. A conversion touches no file but its destination: every other path,
    the inputs included, holds after the call what it held before. *)
Theorem convert_touches_only_destination jpeg_files output_path w path :
  path <> output_path ->
  fs (snd (convert_jpegs_to_pdf jpeg_files output_path w)) !! path = fs w !! path.
Proof.
  intros Hpath.
  destruct (convert_run jpeg_files output_path w) as (w' & Hrun & _ & Hfs & _).
  rewrite Hrun. simpl. rewrite Hfs. unfold conversion, attempt.
  destruct jpeg_files as [|fp0 files0]; [done|].
  destruct (String.eqb output_path ""); [done|].
  destruct (pages_of _) as [[|first rest]|]; try done.
  pose proof (save_touches_only_destination (fs w) (write_faults w) first
                output_path rest 100 path Hpath) as Hsave.
  by destruct (save _ _ _ _ _ _) as [[?|?] files'].
Qed.

(** X6. A conversion that ends without an exception shows no dialog of its
    own: not when it succeeds, and not when it fails on an empty input
    collection, an empty destination, or inputs none of which opens; these
    failures are only printed. *)
Theorem convert_dialog_only_on_exception jpeg_files output_path w :
  let r := convert_jpegs_to_pdf jpeg_files output_path w in
  (fst r = Return true -> dialogs (snd r) = dialogs w) /\
  (jpeg_files = [] \/ output_path = "" \/
   forallb (fails_to_open (fs w)) jpeg_files = true ->
   fst r = Return false /\ dialogs (snd r) = dialogs w).
Proof.
  destruct (convert_run jpeg_files output_path w) as (w' & Hrun & _ & _ & Hd).
  rewrite Hrun. simpl. split.
  - intros [= Hok]. destruct (conversion w jpeg_files output_path); try done.
    simpl in Hd. by rewrite app_nil_r in Hd.
  - intros Hcase.
    assert (conversion w jpeg_files output_path = NoPages) as E.
    { unfold conversion, attempt.
      destruct jpeg_files as [|fp0 files0] eqn:Hfiles; [done|]. rewrite <- Hfiles in *.
      destruct (String.eqb_spec output_path "") as [|Hout]; [done|].
      destruct Hcase as [->|[->|Hnone]]; [done..|].
      by rewrite (none_open _ _ Hnone). }
    rewrite E in *. simpl in Hd. by rewrite app_nil_r in Hd.
Qed.

(** *** How conversions compose *)

Lemma load_unit im u : load im = Return u -> load im = Return tt.
Proof. by destruct u. Qed.

Lemma write_pages_returns fp ims : forall written,
  Forall (fun im => load_while_writing fp im = Return tt) ims ->
  write_pages fp ims written = (Return tt, written ++ ims).
Proof.
  induction ims as [|im rest IH]; intros written Hall; simpl.
  - by rewrite app_nil_r.
  - inversion Hall as [|? ? Him Hrest]; subst. rewrite Him.
    rewrite IH by done. by rewrite <- app_assoc.
Qed.

Lemma write_pages_inv fp ims : forall written u written',
  write_pages fp ims written = (Return u, written') ->
  Forall (fun im => load_while_writing fp im = Return tt) ims.
Proof.
  induction ims as [|im rest IH]; intros written u written' Hrun; simpl in *.
  - constructor.
  - destruct (load_while_writing fp im) as [[]|] eqn:Him; [|done].
    constructor; [done|]. by eapply IH.
Qed.

(** When [save] returns: the first page decodes, the destination opens, and
    every appended page decodes while the destination is being written. *)
Lemma save_returns_inv files faults first output_path rest resolution u files' :
  save files faults first output_path rest resolution = (Return u, files') ->
  load first = Return tt /\ faults !! output_path = None /\
  Forall (fun im => load_while_writing output_path im = Return tt) rest.
Proof.
  unfold save. destruct (load first) as [[]|]; [|done].
  destruct (faults !! output_path); [done|].
  destruct (write_pages output_path rest [first]) as [[?|?] written] eqn:Hw; [|done].
  intros _. repeat split. by eapply write_pages_inv.
Qed.

Lemma save_returns files faults first output_path rest resolution :
  load first = Return tt -> faults !! output_path = None ->
  Forall (fun im => load_while_writing output_path im = Return tt) rest ->
  save files faults first output_path rest resolution
    = (Return tt,
       <[output_path := mkFile (PdfDocument (first :: rest) resolution)
                               (pdf_nbytes (first :: rest))]> files).
Proof.
  intros Hfirst Hfault Hrest. unfold save.
  by rewrite Hfirst, Hfault, (write_pages_returns _ _ _ Hrest).
Qed.

Lemma load_while_writing_load fp im :
  load_while_writing fp im = Return tt -> load im = Return tt.
Proof.
  unfold load_while_writing. destruct (source im) as [origin|]; [|done].
  by destruct (String.eqb origin fp).
Qed.

Lemma load_while_writing_elsewhere fp im :
  source im <> Some fp -> load_while_writing fp im = load im.
Proof.
  unfold load_while_writing. destruct (source im) as [origin|]; [|done].
  intros Hne. destruct (String.eqb_spec origin fp) as [->|]; done.
Qed.

(** A page still reads from a file only if it is the opened image itself. *)
Lemma page_of_source img page :
  page_of img = Return page -> source page = None \/ page = img.
Proof.
  unfold page_of, convert_RGB. destruct (upright img) as [oriented|] eqn:Hup; [|done].
  assert (source oriented = None \/ oriented = img) as Horiented.
  { destruct (upright_cases _ _ Hup) as [->|[angle Hrot]]; [by right|].
    destruct (rotate_derived _ _ _ Hrot) as (sz & px & -> & _). by left. }
  destruct (negb (String.eqb (mode oriented) "RGB")).
  - destruct (load oriented); [|done].
    destruct (rgb_pixel (mode oriented)); [|done]. intros [= <-]. by left.
  - by intros [= <-].
Qed.

Lemma opened_images_source files jpeg_files img :
  In img (opened_images files jpeg_files) ->
  exists fp, In fp jpeg_files /\ source img = Some fp.
Proof.
  induction jpeg_files as [|fp rest IH]; simpl; [done|].
  unfold open at 1. destruct (files !! fp) as [f|]; simpl.
  - destruct (content f); simpl.
    + intros [<-|Hin]; [exists fp; by split; [left|]|].
      destruct (IH Hin) as (fp' & ? & ?). exists fp'. split; [by right|done].
    + intros Hin. destruct (IH Hin) as (fp' & ? & ?). exists fp'. split; [by right|done].
    + intros Hin. destruct (IH Hin) as (fp' & ? & ?). exists fp'. split; [by right|done].
    + intros Hin. destruct (IH Hin) as (fp' & ? & ?). exists fp'. split; [by right|done].
  - intros Hin. destruct (IH Hin) as (fp' & ? & ?). exists fp'. split; [by right|done].
Qed.

(** The pages of a selection read from no file outside the selection. *)
Lemma pages_of_sources files jpeg_files pages page fp :
  pages_of (opened_images files jpeg_files) = Return pages ->
  In page pages -> source page = Some fp -> In fp jpeg_files.
Proof.
  intros Hpages Hin Hsource. apply pages_of_Forall2 in Hpages.
  assert (exists img, In img (opened_images files jpeg_files) /\ source img = Some fp)
    as (img & Himg & Hsrc).
  { induction Hpages as [|img page' imgs pages' Hpage _ IH]; [done|].
    destruct Hin as [->|Hin].
    - destruct (page_of_source _ _ Hpage) as [Hnone| ->]; [congruence|].
      exists img. split; [by left|done].
    - destruct (IH Hin) as (img' & ? & ?). exists img'. split; [by right|done]. }
  destruct (opened_images_source _ _ _ Himg) as (fp' & Hfp & Hsrc').
  congruence.
Qed.

(** What a call that returns [True] went through. *)
Lemma convert_true_inv jpeg_files output_path w w' :
  convert_jpegs_to_pdf jpeg_files output_path w = (Return true, w') ->
  exists first rest,
    jpeg_files <> [] /\ output_path <> "" /\
    pages_of (opened_images (fs w) jpeg_files) = Return (first :: rest) /\
    save (fs w) (write_faults w) first output_path rest 100 = (Return tt, fs w') /\
    fs w' = <[output_path := mkFile (PdfDocument (first :: rest) 100)
                                    (pdf_nbytes (first :: rest))]> (fs w).
Proof.
  intros Hrun.
  destruct (convert_run jpeg_files output_path w) as (w2 & Hrun2 & _ & Hfs & _).
  rewrite Hrun in Hrun2. injection Hrun2 as Hok <-.
  unfold conversion, attempt in *.
  destruct jpeg_files as [|fp0 files0] eqn:Hfiles; [done|]. rewrite <- Hfiles in *.
  destruct (String.eqb_spec output_path "") as [|Hout]; [done|].
  destruct (pages_of _) as [[|first rest]|]; try done.
  destruct (save _ _ _ _ _ _) as [[[]|] files'] eqn:Hsave; [|done].
  simpl in Hfs. subst files'.
  exists first, rest. repeat split; try done; [by subst|].
  by apply save_written in Hsave.
Qed.

Lemma convert_true_intro jpeg_files output_path w first rest files' :
  jpeg_files <> [] -> output_path <> "" ->
  pages_of (opened_images (fs w) jpeg_files) = Return (first :: rest) ->
  save (fs w) (write_faults w) first output_path rest 100 = (Return tt, files') ->
  exists w',
    convert_jpegs_to_pdf jpeg_files output_path w = (Return true, w') /\
    fs w' = files'.
Proof.
  intros Hfiles Hout Hpages Hsave.
  destruct (convert_succeeds jpeg_files output_path w first rest _ Hfiles Hout Hpages
              Hsave) as (w' & Hrun & Hfs & _).
  by exists w'.
Qed.

Lemma opened_images_app files xs ys :
  opened_images files (xs ++ ys) = opened_images files xs ++ opened_images files ys.
Proof.
  induction xs as [|fp rest IH]; simpl; [done|].
  destruct (open files fp); simpl; by rewrite IH.
Qed.

Lemma pages_of_app imgs1 imgs2 pages1 pages2 :
  pages_of imgs1 = Return pages1 -> pages_of imgs2 = Return pages2 ->
  pages_of (imgs1 ++ imgs2) = Return (pages1 ++ pages2).
Proof.
  revert pages1. induction imgs1 as [|img rest IH]; intros pages1 H1 H2; simpl in *.
  - by injection H1 as <-.
  - destruct (page_of img); [|done].
    destruct (pages_of rest) as [pages|]; [|done].
    injection H1 as <-. by rewrite (IH pages eq_refl H2).
Qed.

(** X7. Conversions concatenate: when two selections convert successfully,
    converting one followed by the other to a writable destination that is
    none of the inputs succeeds too, and its document is the pages of the
    first followed by the pages of the second. *)
Theorem convert_concatenates xs ys out1 out2 out3 w wx wy :
  convert_jpegs_to_pdf xs out1 w = (Return true, wx) ->
  convert_jpegs_to_pdf ys out2 w = (Return true, wy) ->
  out3 <> "" -> write_faults w !! out3 = None -> ~ In out3 (xs ++ ys) ->
  exists px py w',
    fs wx !! out1 = Some (mkFile (PdfDocument px 100) (pdf_nbytes px)) /\
    fs wy !! out2 = Some (mkFile (PdfDocument py 100) (pdf_nbytes py)) /\
    convert_jpegs_to_pdf (xs ++ ys) out3 w = (Return true, w') /\
    fs w' !! out3
      = Some (mkFile (PdfDocument (px ++ py) 100) (pdf_nbytes (px ++ py))).
Proof.
  intros Hx Hy Hout Hfault Hfresh.
  apply convert_true_inv in Hx as (fx & rx & Hxs & _ & Hpx & Hsx & Hfx).
  apply convert_true_inv in Hy as (fy & ry & _ & _ & Hpy & Hsy & Hfy).
  apply save_returns_inv in Hsx as (Hlx & _ & Hrx).
  apply save_returns_inv in Hsy as (Hly & _ & Hry).
  assert (Hpages : pages_of (opened_images (fs w) (xs ++ ys))
                   = Return ((fx :: rx) ++ fy :: ry)).
  { rewrite opened_images_app. by apply pages_of_app. }
  assert (Hrest : Forall (fun im => load_while_writing out3 im = Return tt)
                         (rx ++ fy :: ry)).
  { apply Forall_forall. intros page Hin.
    rewrite load_while_writing_elsewhere.
    - apply list_elem_of_In, in_app_or in Hin. destruct Hin as [Hin|[<-|Hin]].
      + rewrite Forall_forall in Hrx.
        by apply (load_while_writing_load out1), Hrx, list_elem_of_In.
      + done.
      + rewrite Forall_forall in Hry.
        by apply (load_while_writing_load out2), Hry, list_elem_of_In.
    - intros Hsource. apply Hfresh.
      apply (pages_of_sources _ _ _ page out3 Hpages); [|done].
      right. by apply list_elem_of_In. }
  pose proof (save_returns (fs w) (write_faults w) fx out3 (rx ++ fy :: ry) 100
                Hlx Hfault Hrest) as Hsave.
  assert (Hne : xs ++ ys <> []) by (by destruct xs).
  destruct (convert_true_intro (xs ++ ys) out3 w fx (rx ++ fy :: ry) _
              Hne Hout Hpages Hsave) as (w' & Hrun & Hfs).
  exists (fx :: rx), (fy :: ry), w'.
  rewrite Hfs, Hfx, Hfy. by rewrite !lookup_insert_eq.
Qed.

Lemma opened_images_filter files jpeg_files :
  opened_images files
    (List.filter (fun fp => negb (fails_to_open files fp)) jpeg_files)
  = opened_images files jpeg_files.
Proof.
  unfold fails_to_open.
  induction jpeg_files as [|fp rest IH]; simpl; [done|].
  destruct (open files fp) eqn:Hopen; simpl; [|done].
  by rewrite Hopen, IH.
Qed.

(** X8. The inputs that fail to open contribute nothing: a successful
    conversion leaves the same files as the conversion of the selection
    without them, which succeeds as well. *)
Theorem convert_skips_unopenable jpeg_files output_path w w' :
  convert_jpegs_to_pdf jpeg_files output_path w = (Return true, w') ->
  exists w'',
    convert_jpegs_to_pdf
      (List.filter (fun fp => negb (fails_to_open (fs w) fp)) jpeg_files)
      output_path w = (Return true, w'') /\
    fs w'' = fs w'.
Proof.
  intros Hrun.
  apply convert_true_inv in Hrun as (first & rest & _ & Hout & Hp & Hsave & _).
  apply (convert_true_intro _ output_path w first rest); try done.
  - intros Hnil. rewrite <- opened_images_filter, Hnil in Hp. done.
  - by rewrite opened_images_filter.
Qed.

(** *** The main program *)

Lemma chosen_files_logged w ls : chosen_files (logged w ls) = chosen_files w.
Proof. reflexivity. Qed.

Lemma chosen_output_logged w ls : chosen_output (logged w ls) = chosen_output w.
Proof. reflexivity. Qed.

Lemma fs_logged w ls : fs (logged w ls) = fs w.
Proof. reflexivity. Qed.

Ltac step_print H :=
  unfold bind at 1 in H; rewrite print_logged in H; cbv beta iota in H.

(** The listing of the selection prints one line per file and stops with
    the error of [os.path.getsize] at the first file that is not there. *)
Lemma list_selected_run files : forall i w,
  exists ls,
    list_selected i files w
    = (if forallb (on_disk (fs w)) files then Return tt
       else Raise (mkExc OSError "No such file or directory"),
       logged w ls).
Proof.
  induction files as [|fp rest IH]; intros i w; simpl.
  - exists []. by rewrite logged_nil.
  - unfold bind at 1. unfold getsize, on_disk at 1.
    destruct (fs w !! fp) as [f|]; simpl.
    + destruct (IH (S i) (logged w [LogSelectedFile i (basename fp) (nbytes f)]))
        as [ls Hls].
      exists ([LogSelectedFile i (basename fp) (nbytes f)] ++ ls).
      unfold bind. rewrite print_logged, Hls. simpl. by rewrite logged_logged.
    + exists []. by rewrite logged_nil.
Qed.

Lemma main_run w :
  chosen_files w <> [] ->
  forallb (on_disk (fs w)) (chosen_files w) = true ->
  chosen_output w <> "" ->
  fst (main w) = Return tt /\
  fs (snd (main w))
    = files_after (fs w) (attempt w (chosen_files w) (chosen_output w)) /\
  dialogs (snd (main w)) = dialogs w ++
    match attempt w (chosen_files w) (chosen_output w) with
    | Failed e _ => [error_dialog e]
    | NoPages => []
    | Written files =>
        [ShowInfo (mkSuccess (length (chosen_files w)) (chosen_output w)
                             (size_at files (chosen_output w)))]
    end.
Proof.
  intros Hfiles Hdisk Hout.
  remember (main w) as r eqn:Hr.
  unfold main in Hr.
  do 2 step_print Hr.
  unfold bind at 1 in Hr. unfold select_jpeg_files at 1 in Hr.
  cbv beta iota in Hr. rewrite !logged_logged, !chosen_files_logged in Hr.
  destruct (chosen_files w) as [|fp0 files0] eqn:Hsel; [done|].
  cbv beta iota in Hr. rewrite <- Hsel in Hr, Hdisk, Hfiles |- *.
  clear Hsel fp0 files0.
  step_print Hr.
  unfold bind at 1 in Hr.
  match type of Hr with context [list_selected 1 ?fl ?w1] =>
    destruct (list_selected_run fl 1 w1) as [ls Hls]
  end.
  rewrite Hls in Hr. rewrite !logged_logged, fs_logged in Hr. rewrite Hdisk in Hr.
  cbv beta iota in Hr.
  step_print Hr.
  unfold bind at 1 in Hr. unfold select_output_path at 1 in Hr.
  cbv beta iota in Hr. rewrite !logged_logged, !chosen_output_logged in Hr.
  destruct (String.eqb_spec (chosen_output w) "") as [|_]; [done|].
  do 2 step_print Hr.
  unfold bind at 1 in Hr.
  match type of Hr with context [convert_jpegs_to_pdf ?fl ?o ?w1] =>
    destruct (convert_denotes fl o w1) as (w2 & Hrun & _ & Hfs & Hd);
      [done..|]
  end.
  rewrite Hrun in Hr. clear Hrun. cbv beta iota in Hr.
  unfold attempt in *. simpl fs in *. simpl write_faults in *. simpl dialogs in *.
  destruct (pages_of (opened_images (fs w) (chosen_files w))) as [[|first rest]|e].
  - simpl in Hr. subst r. simpl. by rewrite Hd.
  - destruct (save _ _ _ _ _ _) as [[u|e] files'] eqn:Hsave.
    + simpl in Hr, Hfs, Hd. do 2 unfold bind at 1 in Hr. unfold getsize in Hr.
      rewrite Hfs in Hr. unfold size_at.
      apply save_written in Hsave as Hfiles'.
      assert (files' !! chosen_output w
              = Some (mkFile (PdfDocument (first :: rest) 100)
                             (pdf_nbytes (first :: rest)))) as E
        by (rewrite Hfiles'; apply lookup_insert_eq).
      rewrite E in *. simpl in Hr. subst r. simpl.
      by rewrite Hd, app_nil_r.
    + simpl in Hr. subst r. simpl. by rewrite Hd.
  - simpl in Hr. subst r. simpl. by rewrite Hd.
Qed.

(** X9. A cancelled dialog ends [main] before any conversion: with no file
    selected, or with the selected files listed and no destination chosen,
    [main] returns having only printed; no file is written and no dialog is
    shown. *)
Theorem main_cancelled_only_prints w :
  chosen_files w = [] \/
  (forallb (on_disk (fs w)) (chosen_files w) = true /\ chosen_output w = "") ->
  exists ls, main w = (Return tt, logged w ls).
Proof.
  intros Hcancel.
  remember (main w) as r eqn:Hr.
  unfold main in Hr.
  do 2 step_print Hr.
  unfold bind at 1 in Hr. unfold select_jpeg_files at 1 in Hr.
  cbv beta iota in Hr. rewrite !logged_logged, !chosen_files_logged in Hr.
  destruct (chosen_files w) as [|fp0 files0] eqn:Hsel.
  - cbv beta iota in Hr. step_print Hr. rewrite print_logged in Hr.
    rewrite !logged_logged in Hr. by eexists.
  - destruct Hcancel as [|[Hdisk Hout]]; [done|].
    cbv beta iota in Hr. rewrite <- Hsel in Hr, Hdisk. clear Hsel fp0 files0.
    step_print Hr.
    unfold bind at 1 in Hr.
    match type of Hr with context [list_selected 1 ?fl ?w1] =>
      destruct (list_selected_run fl 1 w1) as [ls Hls]
    end.
    rewrite Hls in Hr. rewrite !logged_logged, fs_logged in Hr. rewrite Hdisk in Hr.
    cbv beta iota in Hr.
    step_print Hr.
    unfold bind at 1 in Hr. unfold select_output_path at 1 in Hr.
    cbv beta iota in Hr. rewrite !logged_logged, !chosen_output_logged in Hr.
    rewrite Hout in Hr. change (String.eqb "" "") with true in Hr.
    cbv beta iota in Hr.
    step_print Hr. rewrite print_logged in Hr.
    rewrite !logged_logged in Hr. by eexists.
Qed.


(** X11. When every selected file is on disk, [main] returns normally
    whatever the conversion meets, and it shows at most one dialog. *)
Theorem main_returns_when_files_exist w :
  forallb (on_disk (fs w)) (chosen_files w) = true ->
  fst (main w) = Return tt /\
  exists ds, dialogs (snd (main w)) = dialogs w ++ ds /\ length ds <= 1.
Proof.
  intros Hdisk.
  destruct (chosen_files w) as [|fp0 files0] eqn:Hsel.
  { destruct (main_cancelled_only_prints w) as [ls ->]; [by left|].
    split; [done|]. exists []. simpl. split; [by rewrite app_nil_r|lia]. }
  destruct (String.eqb_spec (chosen_output w) "") as [Hout|Hout].
  { destruct (main_cancelled_only_prints w) as [ls ->]; [right; by rewrite Hsel|].
    split; [done|]. exists []. simpl. split; [by rewrite app_nil_r|lia]. }
  rewrite <- Hsel in Hdisk.
  destruct (main_run w) as (Hret & _ & Hd); [by rewrite Hsel|done..|].
  split; [done|]. eexists. split; [exact Hd|].
  destruct (attempt _ _ _); simpl; lia.
Qed.

(** X12. When the selected files are on disk but none of them opens as an
    image, the user sees no dialog at all: [main] returns with the failure
    printed only, and no file is written. *)
Theorem main_silent_when_nothing_opens w :
  chosen_files w <> [] -> chosen_output w <> "" ->
  forallb (on_disk (fs w)) (chosen_files w) = true ->
  forallb (fails_to_open (fs w)) (chosen_files w) = true ->
  fst (main w) = Return tt /\
  dialogs (snd (main w)) = dialogs w /\
  fs (snd (main w)) = fs w.
Proof.
  intros Hfiles Hout Hdisk Hnone.
  destruct (main_run w Hfiles Hdisk Hout) as (Hret & Hfs & Hd).
  unfold attempt in *. rewrite (none_open _ _ Hnone) in *. simpl in *.
  by rewrite app_nil_r in Hd.
Qed.

(** X13. After a successful conversion [main] shows exactly one dialog, the
    success dialog; its location is the chosen destination and its size is
    that of the document the conversion left there. *)
Theorem main_success_dialog w :
  chosen_files w <> [] -> chosen_output w <> "" ->
  forallb (on_disk (fs w)) (chosen_files w) = true ->
  fst (convert_jpegs_to_pdf (chosen_files w) (chosen_output w) w) = Return true ->
  exists pages message,
    fs (snd (main w)) !! chosen_output w
      = Some (mkFile (PdfDocument pages 100) (pdf_nbytes pages)) /\
    dialogs (snd (main w)) = dialogs w ++ [ShowInfo message] /\
    msg_location message = chosen_output w /\
    msg_bytes message = pdf_nbytes pages.
Proof.
  intros Hfiles Hout Hdisk Hok.
  destruct (main_run w Hfiles Hdisk Hout) as (_ & Hfs & Hd).
  destruct (convert_denotes _ _ w Hfiles Hout) as (w' & Hrun & _).
  rewrite Hrun in Hok. simpl in Hok. injection Hok as Hok.
  unfold attempt in *.
  destruct (pages_of _) as [[|first rest]|]; try done.
  destruct (save _ _ _ _ _ _) as [[u|] files'] eqn:Hsave; [|done].
  apply save_written in Hsave as ->. simpl in Hfs, Hd.
  exists (first :: rest). eexists. rewrite Hfs, Hd.
  split; [apply lookup_insert_eq|]. split; [reflexivity|]. split; [done|].
  simpl. unfold size_at. by rewrite lookup_insert_eq.
Qed.

(** X14. After a failed conversion [main] adds no dialog of its own: the
    dialogs are those the conversion showed, so the success dialog appears
    only after a successful conversion. *)
Theorem main_failure_adds_no_dialog w :
  chosen_files w <> [] -> chosen_output w <> "" ->
  forallb (on_disk (fs w)) (chosen_files w) = true ->
  fst (convert_jpegs_to_pdf (chosen_files w) (chosen_output w) w) = Return false ->
  dialogs (snd (main w))
    = dialogs (snd (convert_jpegs_to_pdf (chosen_files w) (chosen_output w) w)).
Proof.
  intros Hfiles Hout Hdisk Hfail.
  destruct (main_run w Hfiles Hdisk Hout) as (_ & _ & Hd).
  destruct (convert_denotes _ _ w Hfiles Hout) as (w' & Hrun & _ & _ & Hd').
  rewrite Hrun in *. simpl in *. rewrite Hd, Hd'.
  by destruct (attempt _ _ _).
Qed.

End Further.

(** ** The further properties on the sample data *)

Lemma apply_exif_orientation_idempotent_witness :
  fst (apply_exif_orientation (transpose (photo (PyInt 6)) ROTATE_270) "/in/a.jpg" w1)
  = Return (transpose (photo (PyInt 6)) ROTATE_270).
Proof.
  apply (apply_exif_orientation_idempotent (photo (PyInt 6)) "/in/a.jpg" w0).
  vm_compute. reflexivity.
Defined.

Lemma apply_exif_orientation_keeps_mode_and_area_witness :
  let out := transpose (photo (PyInt 8)) ROTATE_90 in
  mode out = mode (photo (PyInt 8)) /\
  width out * height out = width (photo (PyInt 8)) * height (photo (PyInt 8)) /\
  (well_formed (photo (PyInt 8)) -> well_formed out).
Proof.
  apply (apply_exif_orientation_keeps_mode_and_area (photo (PyInt 8)) "/in/a.jpg" w0).
  vm_compute. reflexivity.
Defined.

Lemma convert_touches_only_destination_witness :
  fs (snd (convert_jpegs_to_pdf selection "/out/x.pdf" w0)) !! "/in/a.jpg"
  = fs w0 !! "/in/a.jpg".
Proof.
  apply (convert_touches_only_destination selection "/out/x.pdf" w0 "/in/a.jpg").
  discriminate.
Defined.

Lemma convert_dialog_only_on_exception_witness :
  dialogs (snd (convert_jpegs_to_pdf selection "/out/x.pdf" w0)) = dialogs w0 /\
  fst (convert_jpegs_to_pdf ["/in/notes.txt"] "/out/x.pdf" w0) = Return false /\
  dialogs (snd (convert_jpegs_to_pdf ["/in/notes.txt"] "/out/x.pdf" w0)) = dialogs w0.
Proof.
  split.
  - destruct (convert_dialog_only_on_exception selection "/out/x.pdf" w0) as [Tok _].
    apply Tok. vm_compute. reflexivity.
  - destruct (convert_dialog_only_on_exception ["/in/notes.txt"] "/out/x.pdf" w0)
      as [_ Tnone].
    apply Tnone. right. right. vm_compute. reflexivity.
Defined.

Lemma convert_concatenates_witness :
  exists px py w',
    fs (snd (convert_jpegs_to_pdf ["/in/a.jpg"] "/out/x.pdf" w0)) !! "/out/x.pdf"
      = Some (mkFile (PdfDocument px 100) (pdf_nbytes px)) /\
    fs (snd (convert_jpegs_to_pdf ["/in/notes.txt"; "/in/b.jpg"] "/out/y.pdf" w0))
       !! "/out/y.pdf"
      = Some (mkFile (PdfDocument py 100) (pdf_nbytes py)) /\
    convert_jpegs_to_pdf (["/in/a.jpg"] ++ ["/in/notes.txt"; "/in/b.jpg"]) "/out/z.pdf" w0
      = (Return true, w') /\
    fs w' !! "/out/z.pdf"
      = Some (mkFile (PdfDocument (px ++ py) 100) (pdf_nbytes (px ++ py))).
Proof.
  apply (convert_concatenates ["/in/a.jpg"] ["/in/notes.txt"; "/in/b.jpg"]
           "/out/x.pdf" "/out/y.pdf" "/out/z.pdf" w0).
  - vm_compute. reflexivity.
  - vm_compute. reflexivity.
  - discriminate.
  - vm_compute. reflexivity.
  - simpl. intros [E|[E|[E|[]]]]; discriminate E.
Defined.

Lemma convert_skips_unopenable_witness :
  exists w'',
    convert_jpegs_to_pdf
      (List.filter (fun fp => negb (fails_to_open (fs w0) fp)) selection)
      "/out/x.pdf" w0 = (Return true, w'') /\
    fs w'' = fs w1.
Proof.
  apply (convert_skips_unopenable selection "/out/x.pdf" w0 w1).
  vm_compute. reflexivity.
Defined.

Lemma main_cancelled_only_prints_witness :
  (exists ls, main (world [] "") = (Return tt, logged (world [] "") ls)) /\
  (exists ls, main (world selection "") = (Return tt, logged (world selection "") ls)).
Proof.
  split.
  - apply (main_cancelled_only_prints (world [] "")). left. reflexivity.
  - apply (main_cancelled_only_prints (world selection "")). right.
    split; vm_compute; reflexivity.
Defined.


Lemma main_returns_when_files_exist_witness :
  fst (main (world selection "/out/x.pdf")) = Return tt /\
  exists ds,
    dialogs (snd (main (world selection "/out/x.pdf")))
      = dialogs (world selection "/out/x.pdf") ++ ds /\
    length ds <= 1.
Proof.
  apply (main_returns_when_files_exist (world selection "/out/x.pdf")).
  vm_compute. reflexivity.
Defined.

Lemma main_silent_when_nothing_opens_witness :
  let w := world ["/in/notes.txt"] "/out/x.pdf" in
  fst (main w) = Return tt /\ dialogs (snd (main w)) = dialogs w /\
  fs (snd (main w)) = fs w.
Proof.
  apply (main_silent_when_nothing_opens (world ["/in/notes.txt"] "/out/x.pdf")).
  - discriminate.
  - discriminate.
  - vm_compute. reflexivity.
  - vm_compute. reflexivity.
Defined.

Lemma main_success_dialog_witness :
  let w := world selection "/out/x.pdf" in
  exists pages message,
    fs (snd (main w)) !! chosen_output w
      = Some (mkFile (PdfDocument pages 100) (pdf_nbytes pages)) /\
    dialogs (snd (main w)) = dialogs w ++ [ShowInfo message] /\
    msg_location message = chosen_output w /\
    msg_bytes message = pdf_nbytes pages.
Proof.
  apply (main_success_dialog (world selection "/out/x.pdf")).
  - discriminate.
  - discriminate.
  - vm_compute. reflexivity.
  - vm_compute. reflexivity.
Defined.

Lemma main_failure_adds_no_dialog_witness :
  let w := world ["/in/a.jpg"; "/in/bad_exif.jpg"] "/out/x.pdf" in
  dialogs (snd (main w))
  = dialogs (snd (convert_jpegs_to_pdf (chosen_files w) (chosen_output w) w)).
Proof.
  apply (main_failure_adds_no_dialog (world ["/in/a.jpg"; "/in/bad_exif.jpg"] "/out/x.pdf")).
  - discriminate.
  - discriminate.
  - vm_compute. reflexivity.
  - vm_compute. reflexivity.
Defined.
